(** * Personal Finance Tracker: a shallow embedding of [finance_tracker.py]

    The development follows the Python module top to bottom: the number
    and text primitives the module relies on ([float], [str.lower],
    [datetime.strptime], [sum], [max], [min]), the [Transaction] and
    [Budget] entities with their validation, the two CSV tables with the
    managers that load, append and rewrite them, and the analyzer.

    Conventions.
    - A Python [float] is an exact rational or one of the IEEE special
      values [inf], [-inf], [nan]; rounding, overflow and signed zeros
      are outside this model.  Python's [int] constants [0] and [100]
      are the rationals [0] and [100].
    - A [str] is a [string] of 8-bit characters; the predicates on
      characters are the ASCII ones.
    - An exception is a value of [exn]; code that raises returns
      [Raise e], and code that both raises and writes a table returns
      the outcome together with the table it leaves behind. *)

From Stdlib Require Import ZArith QArith Qreduction Lqa Lia.
From Stdlib Require Import List String Ascii Bool.
Import ListNotations.

Local Open Scope Z_scope.

(** ** Python floats *)

Module PyFloat.

Inductive pyfloat : Type :=
| Fin (q : Q)
| PInf
| NInf
| NaN.

Definition Qltb (a b : Q) : bool :=
  (Qnum a * QDen b <? Qnum b * QDen a)%Z.

Definition zero : pyfloat := Fin 0.
Definition hundred : pyfloat := Fin 100.


(** [x < y]; every comparison with [nan] is false. *)
Definition flt (x y : pyfloat) : bool :=
  match x, y with
  | NaN, _ | _, NaN => false
  | Fin a, Fin b => Qltb a b
  | NInf, NInf => false
  | NInf, _ => true
  | _, NInf => false
  | PInf, _ => false
  | Fin _, PInf => true
  end.

(** [x <= y]. *)
Definition fle (x y : pyfloat) : bool :=
  match x, y with
  | NaN, _ | _, NaN => false
  | Fin a, Fin b => Qle_bool a b
  | NInf, _ => true
  | _, PInf => true
  | _, NInf => false
  | PInf, Fin _ => false
  end.

(** [x == y]. *)
Definition feq (x y : pyfloat) : bool :=
  match x, y with
  | Fin a, Fin b => Qeq_bool a b
  | PInf, PInf | NInf, NInf => true
  | _, _ => false
  end.

Definition fgt (x y : pyfloat) : bool := flt y x.

Definition fneg (x : pyfloat) : pyfloat :=
  match x with
  | Fin a => Fin (Qred (- a))
  | PInf => NInf
  | NInf => PInf
  | NaN => NaN
  end.

Definition fadd (x y : pyfloat) : pyfloat :=
  match x, y with
  | NaN, _ | _, NaN => NaN
  | Fin a, Fin b => Fin (Qred (a + b))
  | PInf, NInf | NInf, PInf => NaN
  | PInf, _ | _, PInf => PInf
  | NInf, _ | _, NInf => NInf
  end.

Definition fsub (x y : pyfloat) : pyfloat :=
  match x, y with
  | NaN, _ | _, NaN => NaN
  | Fin a, Fin b => Fin (Qred (a - b))
  | PInf, PInf | NInf, NInf => NaN
  | PInf, _ | _, NInf => PInf
  | NInf, _ | _, PInf => NInf
  end.

(** The infinity carrying the sign of [q], [nan] for [q = 0]. *)
Definition signed_inf (q : Q) (positive : bool) : pyfloat :=
  if Qltb 0 q then (if positive then PInf else NInf)
  else if Qltb q 0 then (if positive then NInf else PInf)
  else NaN.

Definition fmul (x y : pyfloat) : pyfloat :=
  match x, y with
  | NaN, _ | _, NaN => NaN
  | Fin a, Fin b => Fin (Qred (a * b))
  | PInf, PInf | NInf, NInf => PInf
  | PInf, NInf | NInf, PInf => NInf
  | PInf, Fin b => signed_inf b true
  | NInf, Fin b => signed_inf b false
  | Fin a, PInf => signed_inf a true
  | Fin a, NInf => signed_inf a false
  end.

(** [x / y].  Python raises [ZeroDivisionError] for a zero divisor; both
    divisions of the module are guarded by [divisor > 0], and the value
    given here for a zero divisor, [nan], is never used. *)
Definition fdiv (x y : pyfloat) : pyfloat :=
  match x, y with
  | NaN, _ | _, NaN => NaN
  | Fin a, Fin b => if Qeq_bool b 0 then NaN else Fin (Qred (a / b))
  | Fin _, (PInf | NInf) => zero
  | (PInf | NInf), (PInf | NInf) => NaN
  | PInf, Fin b => if Qeq_bool b 0 then NaN else signed_inf b true
  | NInf, Fin b => if Qeq_bool b 0 then NaN else signed_inf b false
  end.

(** [sum(xs)]: left to right from the integer [0]. *)
Definition py_sum (xs : list pyfloat) : pyfloat :=
  fold_left fadd xs zero.

(** [max(a, b)]: the first argument unless the second is greater. *)
Definition py_max (a b : pyfloat) : pyfloat :=
  if fgt b a then b else a.

(** [min(a, b)]: the first argument unless the second is smaller. *)
Definition py_min (a b : pyfloat) : pyfloat :=
  if flt b a then b else a.

End PyFloat.
Import PyFloat.

(** ** Python text primitives *)

Module PyText.

Definition code (c : ascii) : Z := Z.of_nat (nat_of_ascii c).

Definition between (lo hi : Z) (c : ascii) : bool :=
  (lo <=? code c) && (code c <=? hi).

Definition is_char (x c : ascii) : bool := Ascii.eqb x c.

(** The value of a decimal digit character. *)
Definition digit_val (c : ascii) : option Z :=
  if between 48 57 c then Some (code c - 48) else None.

Definition is_digit (c : ascii) : bool :=
  match digit_val c with Some _ => true | None => false end.

(** [str.lower] on the ASCII letters. *)
Definition lower_char (c : ascii) : ascii :=
  if between 65 90 c then ascii_of_nat (nat_of_ascii c + 32) else c.

Fixpoint str_lower (s : string) : string :=
  match s with
  | EmptyString => EmptyString
  | String c r => String (lower_char c) (str_lower r)
  end.

(** ASCII white space, as [str.strip] and [float] see it. *)
Definition is_space (c : ascii) : bool :=
  between 9 13 c || between 28 32 c.

Fixpoint lstrip (l : list ascii) : list ascii :=
  match l with
  | c :: r => if is_space c then lstrip r else l
  | [] => []
  end.

Definition strip (l : list ascii) : list ascii :=
  rev (lstrip (rev (lstrip l))).

(** *** [float(text)] *)

(** A run of digits in which single underscores may separate digits;
    returns the value read so far, the number of digits and the rest. *)
Fixpoint read_digits (acc : Z) (n : nat) (l : list ascii)
  : Z * nat * list ascii :=
  match l with
  | c :: r =>
      match digit_val c with
      | Some d =>
          match r with
          | u :: ((c2 :: _) as r') =>
              if is_char "_" u && is_digit c2
              then read_digits (acc * 10 + d) (S n) r'
              else read_digits (acc * 10 + d) (S n) r
          | _ => read_digits (acc * 10 + d) (S n) r
          end
      | None => (acc, n, l)
      end
  | [] => (acc, n, [])
  end.

(** [m * 10 ^ e] as a rational. *)
Definition scale10 (m e : Z) : Q :=
  if 0 <=? e then Qmake (m * 10 ^ e) 1
  else Qmake m (Z.to_pos (10 ^ (- e))).

(** The exponent part [e[+-]digits], or nothing. *)
Definition read_exponent (l : list ascii) : option Z :=
  match l with
  | [] => Some 0
  | c :: r =>
      if is_char "e" c || is_char "E" c then
        let '(neg, r1) :=
          match r with
          | s :: r' =>
              if is_char "-" s then (true, r')
              else if is_char "+" s then (false, r')
              else (false, r)
          | [] => (false, r)
          end in
        match read_digits 0 0 r1 with
        | (_, O, _) => None
        | (e, S _, []) => Some (if neg then - e else e)
        | (_, S _, _ :: _) => None
        end
      else None
  end.

(** A decimal numeral: digits, an optional fraction, an optional
    exponent, with a digit before or after the point. *)
Definition read_numeral (l : list ascii) : option Q :=
  let '(i, ni, r1) := read_digits 0 0 l in
  let '(m, nf, r2) :=
    match r1 with
    | c :: r =>
        if is_char "." c then read_digits i 0 r else (i, O, r1)
    | [] => (i, O, r1)
    end in
  match ni, nf with
  | O, O => None
  | _, _ =>
      match read_exponent r2 with
      | Some e => Some (Qred (scale10 m (e - Z.of_nat nf)))
      | None => None
      end
  end.

Definition lower_list (l : list ascii) : list ascii := map lower_char l.

Definition list_eqb (a b : list ascii) : bool :=
  String.eqb (string_of_list_ascii a) (string_of_list_ascii b).

(** [float(s)] for a [str]: [None] stands for [ValueError]. *)
Definition float_of_string (s : string) : option pyfloat :=
  let l := strip (list_ascii_of_string s) in
  let '(neg, body) :=
    match l with
    | c :: r =>
        if is_char "-" c then (true, r)
        else if is_char "+" c then (false, r)
        else (false, l)
    | [] => (false, l)
    end in
  let low := lower_list body in
  if list_eqb low (list_ascii_of_string "inf")
     || list_eqb low (list_ascii_of_string "infinity")
  then Some (if neg then NInf else PInf)
  else if list_eqb low (list_ascii_of_string "nan") then Some NaN
  else
    match read_numeral body with
    | Some q => Some (Fin (if neg then Qred (- q) else q))
    | None => None
    end.

(** *** [datetime.strptime(text, "%Y-%m-%d")] *)

Definition is_leap (y : Z) : bool :=
  ((y mod 4 =? 0) && negb (y mod 100 =? 0)) || (y mod 400 =? 0).

Definition days_in_month (y m : Z) : Z :=
  if m =? 2 then (if is_leap y then 29 else 28)
  else if (m =? 4) || (m =? 6) || (m =? 9) || (m =? 11) then 30
  else 31.

(** [%Y]: exactly four digits. *)
Definition read_year (l : list ascii) : option (Z * list ascii) :=
  match l with
  | a :: b :: c :: d :: r =>
      match digit_val a, digit_val b, digit_val c, digit_val d with
      | Some x, Some y, Some z, Some w =>
          Some (x * 1000 + y * 100 + z * 10 + w, r)
      | _, _, _, _ => None
      end
  | _ => None
  end.

(** [%m]: the alternatives [1[0-2]], [0[1-9]], [[1-9]] in this order. *)
Definition read_month (l : list ascii) : option (Z * list ascii) :=
  let one :=
    match l with
    | a :: r => if between 49 57 a then Some (code a - 48, r) else None
    | [] => None
    end in
  match l with
  | a :: b :: r =>
      if (is_char "1" a && between 48 50 b)
         || (is_char "0" a && between 49 57 b)
      then Some ((code a - 48) * 10 + (code b - 48), r)
      else one
  | _ => one
  end.

(** [%d]: the alternatives [3[01]], [[12]\d], [0[1-9]], [[1-9]] and a
    space followed by [[1-9]], in this order. *)
Definition read_day (l : list ascii) : option (Z * list ascii) :=
  let one :=
    match l with
    | a :: r =>
        if between 49 57 a then Some (code a - 48, r)
        else
          match r with
          | b :: r' =>
              if is_char " " a && between 49 57 b
              then Some (code b - 48, r') else None
          | [] => None
          end
    | [] => None
    end in
  match l with
  | a :: b :: r =>
      if (is_char "3" a && between 48 49 b)
         || (between 49 50 a && between 48 57 b)
         || (is_char "0" a && between 49 57 b)
      then Some ((code a - 48) * 10 + (code b - 48), r)
      else one
  | _ => one
  end.

Definition expect (x : ascii) (l : list ascii) : option (list ascii) :=
  match l with
  | c :: r => if is_char x c then Some r else None
  | [] => None
  end.

(** The date read from the text, [None] standing for [ValueError]: the
    pattern has to match, nothing may remain after the day, and the
    three numbers have to form a date of the calendar from year 1 on. *)
Definition strptime_ymd (s : string) : option (Z * Z * Z) :=
  match read_year (list_ascii_of_string s) with
  | Some (y, r1) =>
    match expect "-" r1 with
    | Some r2 =>
      match read_month r2 with
      | Some (m, r3) =>
        match expect "-" r3 with
        | Some r4 =>
          match read_day r4 with
          | Some (d, []) =>
              if (1 <=? y) && (d <=? days_in_month y m)
              then Some (y, m, d) else None
          | _ => None
          end
        | None => None
        end
      | None => None
      end
    | None => None
    end
  | None => None
  end.

End PyText.
Import PyText.

Local Open Scope string_scope.
Local Open Scope list_scope.

(** ** Exceptions *)

Inductive exn : Type :=
| ValueError (msg : string)
| FileNotFoundError.

Inductive result (A : Type) : Type :=
| Ok (a : A)
| Raise (e : exn).

Arguments Ok {A} a.
Arguments Raise {A} e.

Definition bind {A B : Type} (r : result A) (k : A -> result B) : result B :=
  match r with
  | Ok a => k a
  | Raise e => Raise e
  end.

Notation "x <- r ;; k" := (bind r (fun x => k))
  (at level 61, r at next level, right associativity).

(** [try: body / except ValueError: raise ValueError(msg)]. *)
Definition reraise_ValueError {A : Type} (body : result A) (msg : string)
  : result A :=
  match body with
  | Raise (ValueError _) => Raise (ValueError msg)
  | other => other
  end.


(** ** Values handed to [float] and stored in a numeric CSV cell

    The amount of a transaction and the limit of a budget reach the
    module as text (a cell read from a table, a string typed by the
    caller) or as a number.  [csv.writer] stores a number [x] as
    [repr(x)] and [float(repr(x))] is [x] again, so a cell written from
    a number is kept as that number. *)

Inductive pyval : Type :=
| PStr (s : string)
| PFloat (x : pyfloat).

(** [float(v)]. *)
Definition py_float (v : pyval) : result pyfloat :=
  match v with
  | PStr s =>
      match float_of_string s with
      | Some x => Ok x
      | None => Raise (ValueError "could not convert string to float")
      end
  | PFloat x => Ok x
  end.

(** ** class Transaction *)

Record Transaction : Type := mkTransaction {
  _trans_id : string;
  _date : string;
  _amount : pyfloat;
  _category : string;
  _trans_type : string;
  _description : string
}.

Module TransactionImpl.

Definition _validate_inputs (amount : pyval) (date : string)
    (trans_type : string) : result unit :=
  _ <- match strptime_ymd date with
       | Some _ => Ok tt
       | None => Raise (ValueError "Date must be in YYYY-MM-DD format")
       end ;;
  _ <- reraise_ValueError
         (x <- py_float amount ;;
          x' <- py_float amount ;;
          if fle x' zero
          then Raise (ValueError "Amount must be positive")
          else Ok tt)
         "Amount must be a positive number" ;;
  let t := str_lower trans_type in
  if negb ((t =? "income") || (t =? "expense"))
  then Raise (ValueError "Transaction type must be 'income' or 'expense'")
  else Ok tt.

Definition __init__ (trans_id date : string) (amount : pyval)
    (category trans_type description : string) : result Transaction :=
  _ <- _validate_inputs amount date trans_type ;;
  a <- py_float amount ;;
  Ok {| _trans_id := trans_id;
        _date := date;
        _amount := a;
        _category := category;
        _trans_type := str_lower trans_type;
        _description := description |}.

End TransactionImpl.

(** ** class Budget *)

Record Budget : Type := mkBudget {
  b_category : string;
  b_limit : pyfloat
}.

Record limit_status : Type := mkStatus {
  exceeded : bool;
  total : pyfloat;
  remaining : pyfloat;
  percentage : pyfloat
}.

Module BudgetImpl.

Definition _validate_inputs (limit : pyval) : result unit :=
  reraise_ValueError
    (x <- py_float limit ;;
     if fle x zero
     then Raise (ValueError "Budget limit must be positive")
     else Ok tt)
    "Budget limit must be a positive number".

Definition __init__ (category : string) (limit : pyval) : result Budget :=
  _ <- _validate_inputs limit ;;
  l <- py_float limit ;;
  Ok {| b_category := category; b_limit := l |}.

Definition check_limit (self : Budget) (expenses : list Transaction)
  : limit_status :=
  let total :=
    py_sum (map _amount
              (filter (fun e => _category e =? b_category self) expenses)) in
  let percentage :=
    if fgt (b_limit self) zero
    then fmul (fdiv total (b_limit self)) hundred
    else zero in
  {| exceeded := fgt total (b_limit self);
     total := total;
     remaining := py_max zero (fsub (b_limit self) total);
     percentage := py_min hundred percentage |}.

End BudgetImpl.

(** ** The CSV tables

    A table is the sequence of records after the header line; [None]
    stands for a file that does not exist.  [init_files()] runs when the
    module is imported and creates both tables with their header, so the
    operations that write are modelled on an existing table, and only the
    loaders meet a missing file.  Opening, reading and writing an
    existing file succeed. *)

Record raw_transaction : Type := mkRawT {
  r_id : string;
  r_date : string;
  r_amount : pyval;
  r_category : string;
  r_type : string;
  r_description : string
}.

Record raw_budget : Type := mkRawB {
  rb_category : string;
  rb_limit : pyval
}.

Definition init_files {A : Type} (f : option (list A)) : option (list A) :=
  match f with
  | None => Some []
  | Some rows => Some rows
  end.

(** [file_handler(filename, 'r')] on a file that may be missing. *)
Definition open_read {A : Type} (f : option (list A)) : result (list A) :=
  match f with
  | Some rows => Ok rows
  | None => Raise FileNotFoundError
  end.

(** What [logging.warning] receives when a record is skipped: the record
    and the text of the error. *)
Inductive log_record (A : Type) : Type :=
| Skipping (row : A) (error : string).

Arguments Skipping {A} row error.

(** ** class TransactionManager *)

Module TransactionManager.

Definition construct (row : raw_transaction) : result Transaction :=
  TransactionImpl.__init__ (r_id row) (r_date row) (r_amount row)
    (r_category row) (r_type row) (r_description row).

(** The [for row in reader] loop: the transactions built so far and the
    warnings logged so far. *)
Fixpoint load_loop (rows : list raw_transaction)
    (transactions : list Transaction)
    (log : list (log_record raw_transaction))
  : result (list Transaction) * list (log_record raw_transaction) :=
  match rows with
  | [] => (Ok transactions, log)
  | row :: rest =>
      match construct row with
      | Ok trans => load_loop rest (transactions ++ [trans]) log
      | Raise (ValueError e) =>
          load_loop rest transactions (log ++ [Skipping row e])
      | Raise other => (Raise other, log)
      end
  end.

Definition load_transactions_logged (f : option (list raw_transaction))
  : result (list Transaction) * list (log_record raw_transaction) :=
  match open_read f with
  | Ok rows => load_loop rows [] []
  | Raise FileNotFoundError => (Ok [], [])
  | Raise other => (Raise other, [])
  end.

Definition load_transactions (f : option (list raw_transaction))
  : result (list Transaction) :=
  fst (load_transactions_logged f).


(** The row that [delete_transaction] writes for a transaction. *)
Definition write_row (t : Transaction) : raw_transaction :=
  mkRawT (_trans_id t) (_date t) (PFloat (_amount t)) (_category t)
    (_trans_type t) (_description t).

Definition delete_transaction (trans_id : string)
    (table : list raw_transaction)
  : result bool * list raw_transaction :=
  match load_transactions (Some table) with
  | Ok transactions =>
      let updated_transactions :=
        filter (fun t => negb (_trans_id t =? trans_id)) transactions in
      (Ok true, map write_row updated_transactions)
  | Raise e => (Raise e, table)
  end.

End TransactionManager.

(** ** class BudgetManager *)

Module BudgetManager.

Definition construct (row : raw_budget) : result Budget :=
  BudgetImpl.__init__ (rb_category row) (rb_limit row).

Fixpoint load_loop (rows : list raw_budget) (budgets : list Budget)
    (log : list (log_record raw_budget))
  : result (list Budget) * list (log_record raw_budget) :=
  match rows with
  | [] => (Ok budgets, log)
  | row :: rest =>
      match construct row with
      | Ok budget => load_loop rest (budgets ++ [budget]) log
      | Raise (ValueError e) =>
          load_loop rest budgets (log ++ [Skipping row e])
      | Raise other => (Raise other, log)
      end
  end.

Definition load_budgets_logged (f : option (list raw_budget))
  : result (list Budget) * list (log_record raw_budget) :=
  match open_read f with
  | Ok rows => load_loop rows [] []
  | Raise FileNotFoundError => (Ok [], [])
  | Raise other => (Raise other, [])
  end.

Definition load_budgets (f : option (list raw_budget))
  : result (list Budget) :=
  fst (load_budgets_logged f).

(** A [dict] keyed by category: the entries in insertion order, a key
    assigned again keeps its place and takes the new value. *)
Fixpoint dict_set (d : list (string * Budget)) (k : string) (v : Budget)
  : list (string * Budget) :=
  match d with
  | [] => [(k, v)]
  | (k', v') :: rest =>
      if k' =? k then (k, v) :: rest else (k', v') :: dict_set rest k v
  end.

(** [{b._category: b for b in budgets}]. *)
Definition dict_of (budgets : list Budget) : list (string * Budget) :=
  fold_left (fun d b => dict_set d (b_category b) b) budgets [].

Definition dict_values (d : list (string * Budget)) : list Budget :=
  map snd d.

Definition write_row (b : Budget) : raw_budget :=
  mkRawB (b_category b) (PFloat (b_limit b)).

Definition set_budget (category : string) (limit : pyval)
    (table : list raw_budget) : result Budget * list raw_budget :=
  match
    (budget <- BudgetImpl.__init__ category limit ;;
     loaded <- load_budgets (Some table) ;;
     let budgets := dict_of loaded in
     let budgets := dict_set budgets category budget in
     Ok (budget, budgets))
  with
  | Ok (budget, budgets) => (Ok budget, map write_row (dict_values budgets))
  | Raise e => (Raise e, table)
  end.


End BudgetManager.

(** ** pandas: [groupby(...).sum().unstack(fill_value=0)]

    The frame of [generate_monthly_report] has one line per transaction;
    the lines are grouped by the month of the date and by the type.  The
    grouped sums are laid out with one row per month and one column per
    type that occurs, both in ascending order, and a month without
    entries of a type that has a column holds [fill_value] there. *)

Module Pandas.

Definition period : Type := (Z * Z)%type.

(** [.dt.to_period('M')]: the year and the month of a date. *)
Definition to_period_M (d : Z * Z * Z) : period :=
  let '(y, m, _) := d in (y, m).

Definition period_compare (p q : period) : comparison :=
  match Z.compare (fst p) (fst q) with
  | Eq => Z.compare (snd p) (snd q)
  | c => c
  end.



Definition period_eqb (p q : period) : bool :=
  (fst p =? fst q)%Z && (snd p =? snd q)%Z.

Section SortedKeys.
Context {A : Type} (cmp : A -> A -> comparison).

Fixpoint insert_key (x : A) (l : list A) : list A :=
  match l with
  | [] => [x]
  | y :: r =>
      match cmp x y with
      | Lt => x :: l
      | Eq => l
      | Gt => y :: insert_key x r
      end
  end.

(** The distinct keys in ascending order. *)
Definition sorted_keys (l : list A) : list A :=
  fold_right insert_key [] l.

(** Ascending without repetition. *)
Inductive ascending : list A -> Prop :=
| asc_nil : ascending []
| asc_cons (x : A) (l : list A) :
    (forall y, In y l -> cmp x y = Lt) -> ascending l -> ascending (x :: l).

End SortedKeys.

Record frame_line : Type := mkLine {
  l_month : period;
  l_type : string;
  l_amount : pyfloat
}.

Definition group (frame : list frame_line) (p : period) (ty : string)
  : list frame_line :=
  filter (fun l => period_eqb (l_month l) p && (l_type l =? ty)) frame.

(** The grouped sum, present only for a group that has lines. *)
Definition group_sum (frame : list frame_line) (p : period) (ty : string)
  : option pyfloat :=
  match group frame p ty with
  | [] => None
  | g => Some (py_sum (map l_amount g))
  end.

Record report_row : Type := mkRow {
  month : period;
  amounts : list (string * pyfloat);
  savings : pyfloat
}.

(** [row.get(column, default)]. *)
Fixpoint get (cells : list (string * pyfloat)) (column : string)
    (default : pyfloat) : pyfloat :=
  match cells with
  | [] => default
  | (c, v) :: rest => if c =? column then v else get rest column default
  end.

Definition unstack (frame : list frame_line) (fill_value : pyfloat)
  : list (period * list (string * pyfloat)) :=
  let index := sorted_keys period_compare (map l_month frame) in
  let columns := sorted_keys String.compare (map l_type frame) in
  map (fun p =>
         (p, map (fun ty =>
                    (ty, match group_sum frame p ty with
                         | Some v => v
                         | None => fill_value
                         end)) columns)) index.






End Pandas.

(** ** class FinanceAnalyzer *)


Module FinanceAnalyzer.

Import Pandas.

Definition REPORTS_DIR : string := "data/reports".

(** One line of the frame: [pd.to_datetime] reads the date text again. *)
Definition frame_line_of (t : Transaction) : result frame_line :=
  match strptime_ymd (_date t) with
  | Some d => Ok (mkLine (to_period_M d) (_trans_type t) (_amount t))
  | None => Raise (ValueError "Unknown datetime string format")
  end.

Fixpoint frame_of (ts : list Transaction) : result (list frame_line) :=
  match ts with
  | [] => Ok []
  | t :: rest =>
      l <- frame_line_of t ;;
      ls <- frame_of rest ;;
      Ok (l :: ls)
  end.

Definition monthly_data (frame : list frame_line) : list report_row :=
  map (fun '(p, cells) =>
         mkRow p cells
           (fsub (get cells "income" zero) (get cells "expense" zero)))
      (unstack frame zero).

(** [now] is the text of [datetime.now().strftime('%Y%m%d_%H%M%S')].
    The result is the path returned together with the table written
    there. *)
Definition generate_monthly_report (now : string)
    (f : option (list raw_transaction))
  : result (option (string * list report_row)) :=
  transactions <- TransactionManager.load_transactions f ;;
  match transactions with
  | [] => Ok None
  | _ =>
      frame <- frame_of transactions ;;
      let report_path :=
        (REPORTS_DIR ++ "/monthly_report_" ++ now ++ ".csv")%string in
      Ok (Some (report_path, monthly_data frame))
  end.





End FinanceAnalyzer.

(** ** class FinanceTracker *)

Record budget_status : Type := mkBudgetStatus {
  bs_category : string;
  bs_limit : pyfloat;
  bs_spent : pyfloat;
  bs_remaining : pyfloat;
  bs_percentage : pyfloat;
  bs_exceeded : bool
}.

Module FinanceTracker.

Definition get_budget_status (bf : option (list raw_budget))
    (tf : option (list raw_transaction)) : result (list budget_status) :=
  budgets <- BudgetManager.load_budgets bf ;;
  transactions <- TransactionManager.load_transactions tf ;;
  let expenses :=
    filter (fun t => _trans_type t =? "expense") transactions in
  Ok (map (fun budget =>
             let st := BudgetImpl.check_limit budget expenses in
             {| bs_category := b_category budget;
                bs_limit := b_limit budget;
                bs_spent := total st;
                bs_remaining := remaining st;
                bs_percentage := percentage st;
                bs_exceeded := exceeded st |}) budgets).

End FinanceTracker.

(** ** The conditions in the words of the specification *)

Module Spec.

(** A date written YYYY-MM-DD: ten characters, four digits, a dash, two
    digits, a dash, two digits, naming a day of the calendar from year 1
    on. *)
Definition is_yyyy_mm_dd (s : string) : bool :=
  match list_ascii_of_string s with
  | [y1; y2; y3; y4; h1; m1; m2; h2; d1; d2] =>
      match digit_val y1, digit_val y2, digit_val y3, digit_val y4,
            digit_val m1, digit_val m2, digit_val d1, digit_val d2 with
      | Some a, Some b, Some c, Some d, Some e, Some f, Some g, Some h =>
          let y := (a * 1000 + b * 100 + c * 10 + d)%Z in
          let m := (e * 10 + f)%Z in
          let dd := (g * 10 + h)%Z in
          is_char "-" h1 && is_char "-" h2
          && (1 <=? y)%Z && (1 <=? m)%Z && (m <=? 12)%Z
          && (1 <=? dd)%Z && (dd <=? days_in_month y m)%Z
      | _, _, _, _, _, _, _, _ => false
      end
  | _ => false
  end.

(** The amount is a number greater than zero. *)
Definition positive_number (v : pyval) : bool :=
  match py_float v with
  | Ok x => flt zero x
  | Raise _ => false
  end.

(** The type is "income" or "expense", letter case apart. *)
Definition income_or_expense (t : string) : bool :=
  (str_lower t =? "income") || (str_lower t =? "expense").


End Spec.

(** ** Closed forms used in the statements *)


(** A value above zero. *)
Inductive positive : pyfloat -> Prop :=
| positive_fin (q : Q) : (0 < q)%Q -> positive (Fin q)
| positive_inf : positive PInf.


(** The transactions of the records that construct, in table order. *)
Definition loaded (rows : list raw_transaction) : list Transaction :=
  flat_map (fun row =>
              match TransactionManager.construct row with
              | Ok t => [t]
              | Raise _ => []
              end) rows.

(** The warnings for the records that [Transaction] refuses. *)
Definition skipped (rows : list raw_transaction)
  : list (log_record raw_transaction) :=
  flat_map (fun row =>
              match TransactionManager.construct row with
              | Raise (ValueError e) => [Skipping row e]
              | _ => []
              end) rows.


(** The state in which [Transaction] leaves its fields. *)
Definition wf_transaction (t : Transaction) : Prop :=
  strptime_ymd (_date t) <> None
  /\ fle (_amount t) zero = false
  /\ (_trans_type t = "income" \/ _trans_type t = "expense").

(** The budgets of the records that construct, in table order. *)
Definition loaded_budgets (rows : list raw_budget) : list Budget :=
  flat_map (fun row =>
              match BudgetManager.construct row with
              | Ok b => [b]
              | Raise _ => []
              end) rows.

(** A sequence of [set_budget] calls, each on the table the one before
    left; a call that raises leaves the table as it was. *)
Definition set_budgets (calls : list (string * pyval))
    (table : list raw_budget) : list raw_budget :=
  fold_left (fun tb call =>
               snd (BudgetManager.set_budget (fst call) (snd call) tb))
            calls table.

Definition wf_budget (b : Budget) : Prop := fle (b_limit b) zero = false.

(** Every entry of the dictionary sits under its own category. *)
Definition keyed (d : list (string * Budget)) : Prop :=
  Forall (fun e => b_category (snd e) = fst e) d.




(** The last budget of a category in a list, if there is one. *)
Definition last_budget (k : string) (bs : list Budget) : option Budget :=
  fold_left (fun acc b => if b_category b =? k then Some b else acc) bs None.

(** The value a dictionary holds under a key. *)
Fixpoint dict_get (d : list (string * Budget)) (k : string) : option Budget :=
  match d with
  | [] => None
  | (k', v) :: rest => if k' =? k then Some v else dict_get rest k
  end.

Definition is_finite (x : pyfloat) : bool :=
  match x with Fin _ => true | _ => false end.

(** The amount check of [Transaction] fails. *)
Definition amount_refused (amount : pyval) : Prop :=
  match py_float amount with
  | Ok x => fle x zero = true
  | Raise _ => True
  end.

(** ** Sample data *)

Module Samples.

Definition expense (trans_id category : string) (amount : Q) : Transaction :=
  mkTransaction trans_id "2024-01-15" (Fin amount) category "expense" "".

Definition food_budget : Budget := mkBudget "Food" (Fin 100).

Definition food_expenses : list Transaction :=
  [expense "t1" "Food" 40; expense "t2" "Food" 70; expense "t3" "Other" 1000].

Definition bad_row : raw_transaction :=
  mkRawT "r1" "2024-01-15" (PStr "-5") "Food" "expense" "refund".

Definition good_row : raw_transaction :=
  mkRawT "r2" "2024-02-01" (PStr "12.50") "Food" "Expense" "lunch".


(** January: an income and an expense; February: an expense. *)
Definition two_months : list raw_transaction :=
  [mkRawT "a" "2024-01-15" (PStr "1000") "Salary" "income" "";
   mkRawT "b" "2024-01-20" (PStr "400") "Rent" "expense" "";
   mkRawT "c" "2024-02-01" (PStr "50") "Food" "expense" ""].

(** The expenses of the budget example, as records of the table. *)
Definition food_rows : list raw_transaction :=
  [mkRawT "t1" "2024-01-15" (PStr "40") "Food" "expense" "";
   mkRawT "t2" "2024-01-16" (PStr "70") "Food" "expense" "";
   mkRawT "t3" "2024-01-17" (PStr "1000") "Other" "expense" "";
   mkRawT "t4" "2024-01-18" (PStr "5000") "Food" "income" ""].

Definition good_transaction : Transaction :=
  mkTransaction "r2" "2024-02-01" (Fin (25 # 2)) "Food" "expense" "lunch".

End Samples.

(** * Properties *)

(** ** Arithmetic of the float model *)

Lemma Qltb_lt (a b : Q) : Qltb a b = true <-> (a < b)%Q.
Proof. unfold Qltb, Qlt. apply Z.ltb_lt. Qed.

Lemma Qltb_ge (a b : Q) : Qltb a b = false <-> (b <= a)%Q.
Proof. unfold Qltb, Qle. rewrite Z.ltb_ge. reflexivity. Qed.


Lemma Ok_inj {A : Type} (a b : A) : Ok a = Ok b -> a = b.
Proof. congruence. Qed.



(** Linear arithmetic over the rationals, seeing through [Qred]. *)
Ltac qred_lra :=
  repeat match goal with
         | |- context [Qred ?q] =>
             let r := fresh "r" in
             let E := fresh "E" in
             pose proof (Qred_correct q) as E;
             set (r := Qred q) in *; clearbody r
         | H : context [Qred ?q] |- _ =>
             let r := fresh "r" in
             let E := fresh "E" in
             pose proof (Qred_correct q) as E;
             set (r := Qred q) in *; clearbody r
         end;
  lra.






(** ** Budget.check_limit *)





(** C1.  For a budget with category [c] and a limit above zero,
    [check_limit] returns as total the sum of the amounts of exactly the
    transactions whose category is [c] (the same string, letter case
    included), as remaining [max(0, limit - total)], as percentage
    [min(100, total / limit * 100)] and as exceeded [total > limit]; the
    budget Food of 100 with the expenses Food 40, Food 70 and Other 1000
    gives total 110, remaining 0, percentage 100 and exceeded. *)
Theorem check_limit_spec (c : string) (L : pyfloat)
    (expenses : list Transaction) :
  flt zero L = true ->
  let st := BudgetImpl.check_limit (mkBudget c L) expenses in
  let matching := filter (fun e => _category e =? c) expenses in
  (forall e, In e matching <-> In e expenses /\ _category e = c)
  /\ total st = py_sum (map _amount matching)
  /\ remaining st = py_max zero (fsub L (total st))
  /\ percentage st = py_min hundred (fmul (fdiv (total st) L) hundred)
  /\ exceeded st = fgt (total st) L
  /\ BudgetImpl.check_limit Samples.food_budget Samples.food_expenses
     = {| exceeded := true; total := Fin 110;
          remaining := Fin 0; percentage := Fin 100 |}.
Proof.
  intros HL st matching.
  split.
  { intro e. unfold matching. rewrite filter_In, String.eqb_eq. reflexivity. }
  subst st matching. unfold BudgetImpl.check_limit.
  cbn [total remaining percentage exceeded b_limit b_category].
  unfold fgt at 1. rewrite HL.
  repeat split; reflexivity.
Qed.

Lemma check_limit_spec_witness :
  let st := BudgetImpl.check_limit Samples.food_budget Samples.food_expenses in
  total st = Fin 110 /\ remaining st = Fin 0 /\ percentage st = Fin 100
  /\ exceeded st = true.
Proof.
  destruct (check_limit_spec "Food" (Fin 100) Samples.food_expenses eq_refl)
    as (_ & _ & _ & _ & _ & E).
  cbv zeta. rewrite E. repeat split; reflexivity.
Defined.

(** Categories that differ only in letter case do not match. *)
Example check_limit_case_sensitive :
  total (BudgetImpl.check_limit Samples.food_budget
           [Samples.expense "t4" "food" 5; Samples.expense "t5" "FOOD" 7])
  = Fin 0.
Proof. reflexivity. Qed.


(** A limit that [Budget] accepted is above zero unless it is [nan]. *)
Lemma Budget_init_limit (c : string) (v : pyval) (b : Budget) :
  BudgetImpl.__init__ c v = Ok b ->
  b_category b = c /\ py_float v = Ok (b_limit b) /\ fle (b_limit b) zero = false.
Proof.
  unfold BudgetImpl.__init__, BudgetImpl._validate_inputs, bind, reraise_ValueError.
  destruct (py_float v) as [x|e] eqn:E.
  - destruct (fle x zero) eqn:F; [discriminate|].
    intro H. apply Ok_inj in H. subst b. repeat split; assumption.
  - destruct e; discriminate.
Qed.

(** ** Transaction construction *)

Lemma py_float_raises (v : pyval) (e : exn) :
  py_float v = Raise e -> exists msg, e = ValueError msg.
Proof.
  destruct v as [s|x]; simpl; [|discriminate].
  destruct (float_of_string s); [discriminate|].
  intro H. inversion H. eauto.
Qed.

(** [Transaction(...)] in one piece: the three checks in their order. *)
Lemma Transaction_init_cases (trans_id date : string) (amount : pyval)
    (category trans_type description : string) :
  TransactionImpl.__init__ trans_id date amount category trans_type description
  = match strptime_ymd date with
    | None => Raise (ValueError "Date must be in YYYY-MM-DD format")
    | Some _ =>
        match py_float amount with
        | Raise _ => Raise (ValueError "Amount must be a positive number")
        | Ok x =>
            if fle x zero
            then Raise (ValueError "Amount must be a positive number")
            else if Spec.income_or_expense trans_type
                 then Ok (mkTransaction trans_id date x category
                            (str_lower trans_type) description)
                 else Raise (ValueError
                               "Transaction type must be 'income' or 'expense'")
        end
    end.
Proof.
  unfold TransactionImpl.__init__, TransactionImpl._validate_inputs,
    Spec.income_or_expense, bind, reraise_ValueError.
  destruct (strptime_ymd date); [|reflexivity].
  destruct (py_float amount) as [x|e] eqn:E.
  - destruct (fle x zero); [reflexivity|].
    destruct ((str_lower trans_type =? "income")
              || (str_lower trans_type =? "expense")); reflexivity.
  - destruct (py_float_raises _ _ E) as [msg ->]. reflexivity.
Qed.

Lemma Transaction_init_raises (trans_id date : string) (amount : pyval)
    (category trans_type description : string) (e : exn) :
  TransactionImpl.__init__ trans_id date amount category trans_type description
  = Raise e -> exists msg, e = ValueError msg.
Proof.
  rewrite Transaction_init_cases.
  destruct (strptime_ymd date); [|intro H; inversion H; eauto].
  destruct (py_float amount) as [x|]; [|intro H; inversion H; eauto].
  destruct (fle x zero); [intro H; inversion H; eauto|].
  destruct (Spec.income_or_expense trans_type);
    intro H; inversion H; eauto.
Qed.

Lemma Transaction_init_ok (trans_id date : string) (amount : pyval)
    (category trans_type description : string) (t : Transaction) :
  TransactionImpl.__init__ trans_id date amount category trans_type description
  = Ok t ->
  strptime_ymd date <> None
  /\ py_float amount = Ok (_amount t)
  /\ fle (_amount t) zero = false
  /\ Spec.income_or_expense trans_type = true
  /\ t = mkTransaction trans_id date (_amount t) category
           (str_lower trans_type) description.
Proof.
  rewrite Transaction_init_cases.
  destruct (strptime_ymd date); [|discriminate].
  destruct (py_float amount) as [x|]; [|discriminate].
  destruct (fle x zero) eqn:F; [discriminate|].
  destruct (Spec.income_or_expense trans_type) eqn:T; [|discriminate].
  intro H. apply Ok_inj in H. subst t. cbn [_amount].
  repeat split; try assumption; discriminate.
Qed.

Lemma income_or_expense_lower (ty : string) :
  Spec.income_or_expense ty = true ->
  str_lower ty = "income" \/ str_lower ty = "expense".
Proof.
  unfold Spec.income_or_expense. rewrite orb_true_iff, !String.eqb_eq. tauto.
Qed.

Lemma constructed_wf (row : raw_transaction) (t : Transaction) :
  TransactionManager.construct row = Ok t -> wf_transaction t.
Proof.
  unfold TransactionManager.construct. intro H.
  apply Transaction_init_ok in H. destruct H as (D & _ & A & T & E).
  rewrite E. unfold wf_transaction. cbn [_date _amount _trans_type].
  repeat split; try assumption. now apply income_or_expense_lower.
Qed.

(** A row written by [delete_transaction] reads back as the transaction
    it was written from. *)
Lemma construct_write_row (t : Transaction) :
  wf_transaction t ->
  TransactionManager.construct (TransactionManager.write_row t) = Ok t.
Proof.
  intros (D & A & T).
  unfold TransactionManager.construct, TransactionManager.write_row.
  cbn [r_id r_date r_amount r_category r_type r_description].
  rewrite Transaction_init_cases.
  destruct (strptime_ymd (_date t)); [|congruence].
  cbn [py_float]. rewrite A.
  destruct t as [i d a c ty de]. cbn [_trans_type] in *.
  destruct T as [-> | ->]; reflexivity.
Qed.

(** ** TransactionManager *)

Lemma load_loop_closed (rows : list raw_transaction) :
  forall transactions log,
    TransactionManager.load_loop rows transactions log
    = (Ok (transactions ++ loaded rows), log ++ skipped rows).
Proof.
  induction rows as [|row rest IH]; intros ts log; simpl.
  - now rewrite !app_nil_r.
  - destruct (TransactionManager.construct row) as [t|e] eqn:E.
    + rewrite IH, <- app_assoc. reflexivity.
    + unfold TransactionManager.construct in E.
      destruct (Transaction_init_raises _ _ _ _ _ _ _ E) as [msg ->].
      rewrite IH, <- app_assoc. reflexivity.
Qed.

Lemma load_transactions_loaded (rows : list raw_transaction) :
  TransactionManager.load_transactions (Some rows) = Ok (loaded rows).
Proof.
  unfold TransactionManager.load_transactions,
    TransactionManager.load_transactions_logged, open_read.
  now rewrite load_loop_closed.
Qed.


Lemma loaded_wf (rows : list raw_transaction) : Forall wf_transaction (loaded rows).
Proof.
  induction rows as [|row rest IH]; simpl; [constructor|].
  destruct (TransactionManager.construct row) as [t|e] eqn:E; simpl.
  - constructor; [now apply constructed_wf with row | exact IH].
  - exact IH.
Qed.

Lemma loaded_write_rows (ts : list Transaction) :
  Forall wf_transaction ts ->
  loaded (map TransactionManager.write_row ts) = ts.
Proof.
  induction 1 as [|t ts Ht _ IH]; simpl; [reflexivity|].
  rewrite (construct_write_row t Ht), IH. reflexivity.
Qed.





(** ** Dates: what is written YYYY-MM-DD is read by [strptime] *)

Section Dates.
Local Open Scope Z_scope.


Lemma is_char_code (x c : ascii) : is_char x c = true <-> code c = code x.
Proof.
  unfold is_char. rewrite Ascii.eqb_eq. split; [now intros ->|].
  unfold code. intro H. apply Nat2Z.inj in H.
  apply (f_equal ascii_of_nat) in H. now rewrite !ascii_nat_embedding in H.
Qed.

Lemma is_char_eqb (x c : ascii) : is_char x c = (code c =? code x).
Proof.
  destruct (code c =? code x) eqn:E.
  - apply is_char_code. lia.
  - destruct (is_char x c) eqn:F; [|reflexivity].
    apply is_char_code in F. lia.
Qed.


Ltac bool_to_prop :=
  repeat rewrite ?andb_true_iff, ?orb_true_iff, ?Z.leb_le, ?Z.eqb_eq in *.


(** What [strptime] reads is a day of the calendar. *)
Lemma read_month_range (l r : list ascii) (m : Z) :
  read_month l = Some (m, r) -> 1 <= m <= 12.
Proof.
  unfold read_month.
  assert (One : forall a r0,
             (if between 49 57 a then Some (code a - 48, r0) else None)
             = Some (m, r) -> 1 <= m <= 12).
  { intros a r0. unfold between.
    destruct ((49 <=? code a) && (code a <=? 57)) eqn:E; [|discriminate].
    intro H. injection H as <- _. bool_to_prop. lia. }
  destruct l as [|a [|b l']]; [discriminate | apply One |].
  destruct ((is_char "1" a && between 48 50 b)
            || (is_char "0" a && between 49 57 b)) eqn:E; [|apply One].
  intro H. injection H as <- _.
  rewrite !is_char_eqb in E. unfold between in E.
  change (code "1") with 49 in E. change (code "0") with 48 in E.
  bool_to_prop. lia.
Qed.

Lemma read_day_range (l r : list ascii) (d : Z) :
  read_day l = Some (d, r) -> 1 <= d.
Proof.
  unfold read_day.
  assert (One : forall a r0,
             (if between 49 57 a then Some (code a - 48, r0)
              else match r0 with
                   | b :: r' =>
                       if is_char " " a && between 49 57 b
                       then Some (code b - 48, r') else None
                   | [] => None
                   end) = Some (d, r) -> 1 <= d).
  { intros a r0. unfold between.
    destruct ((49 <=? code a) && (code a <=? 57)) eqn:E.
    - intro H. injection H as <- _. bool_to_prop. lia.
    - destruct r0 as [|b r']; [discriminate|].
      destruct (is_char " " a && ((49 <=? code b) && (code b <=? 57))) eqn:F;
        [|discriminate].
      intro H. injection H as <- _. bool_to_prop. lia. }
  destruct l as [|a [|b l']]; [discriminate | apply One |].
  destruct ((is_char "3" a && between 48 49 b)
            || (between 49 50 a && between 48 57 b)
            || (is_char "0" a && between 49 57 b)) eqn:E;
    [|apply (One a (b :: l'))].
  intro H. injection H as <- _.
  rewrite !is_char_eqb in E. unfold between in E.
  change (code "3") with 51 in E. change (code "0") with 48 in E.
  bool_to_prop. lia.
Qed.

Lemma strptime_ymd_calendar (s : string) (y m d : Z) :
  strptime_ymd s = Some (y, m, d) ->
  1 <= y /\ 1 <= m <= 12 /\ 1 <= d <= days_in_month y m.
Proof.
  unfold strptime_ymd.
  destruct (read_year (list_ascii_of_string s)) as [[y0 r1]|]; [|discriminate].
  destruct (expect "-" r1) as [r2|]; [|discriminate].
  destruct (read_month r2) as [[m0 r3]|] eqn:M; [|discriminate].
  destruct (expect "-" r3) as [r4|]; [|discriminate].
  destruct (read_day r4) as [[d0 [|x r5]]|] eqn:D; try discriminate.
  destruct ((1 <=? y0) && (d0 <=? days_in_month y0 m0)) eqn:E; [|discriminate].
  intro H. injection H as <- <- <-.
  apply read_month_range in M. apply read_day_range in D.
  bool_to_prop. lia.
Qed.

End Dates.

(** ** Refused input *)

(** A date written with a one-digit month and day is read by [strptime]
    although it is not written YYYY-MM-DD. *)
Example unpadded_date_accepted :
  Spec.is_yyyy_mm_dd "2024-1-5" = false
  /\ strptime_ymd "2024-1-5" = Some (2024, 1, 5)%Z
  /\ TransactionImpl.__init__ "id" "2024-1-5" (PStr "10") "Food" "income" ""
     = Ok (mkTransaction "id" "2024-1-5" (Fin 10) "Food" "income" "").
Proof. repeat split; vm_compute; reflexivity. Qed.

(** The text "nan" is read as a number that is not [<= 0], so the amount
    check lets it through. *)
Example nan_amount_accepted :
  Spec.positive_number (PStr "nan") = false
  /\ TransactionImpl.__init__ "id" "2024-01-15" (PStr "nan") "Food" "income" ""
     = Ok (mkTransaction "id" "2024-01-15" NaN "Food" "income" "").
Proof. split; vm_compute; reflexivity. Qed.




(** The three ways of failing, on sample input. *)
Example invalid_inputs_rejected :
  TransactionImpl.__init__ "id" "2024-02-30" (PStr "10") "Food" "income" ""
  = Raise (ValueError "Date must be in YYYY-MM-DD format")
  /\ TransactionImpl.__init__ "id" "2024-01-15" (PFloat (Fin 0)) "Food" "income" ""
     = Raise (ValueError "Amount must be a positive number")
  /\ TransactionImpl.__init__ "id" "2024-01-15" (PStr "ten") "Food" "income" ""
     = Raise (ValueError "Amount must be a positive number")
  /\ TransactionImpl.__init__ "id" "2024-01-15" (PStr "10") "Food" "transfer" ""
     = Raise (ValueError "Transaction type must be 'income' or 'expense'").
Proof. repeat split; vm_compute; reflexivity. Qed.

(** ** Valid input *)




(** ** delete_transaction *)

Lemma delete_transaction_closed (trans_id : string)
    (table : list raw_transaction) :
  TransactionManager.delete_transaction trans_id table
  = (Ok true,
     map TransactionManager.write_row
       (filter (fun t => negb (_trans_id t =? trans_id)) (loaded table))).
Proof.
  unfold TransactionManager.delete_transaction.
  now rewrite load_transactions_loaded.
Qed.

Lemma Forall_filter {A : Type} (P : A -> Prop) (f : A -> bool) (l : list A) :
  Forall P l -> Forall P (filter f l).
Proof.
  induction 1 as [|x l Hx _ IH]; simpl; [constructor|].
  destruct (f x); [constructor|]; assumption.
Qed.

Lemma filter_twice {A : Type} (f : A -> bool) (l : list A) :
  filter f (filter f l) = filter f l.
Proof.
  induction l as [|x l IH]; simpl; [reflexivity|].
  destruct (f x) eqn:E; simpl; [rewrite E, IH|]; now try rewrite IH.
Qed.

(** C6.  [delete_transaction] returns [True] whatever the identifier,
    also when no transaction carries it, and a second call with the same
    identifier returns [True] again and writes the table that the first
    call left. *)
Theorem delete_transaction_idempotent (trans_id : string)
    (table : list raw_transaction) :
  let first := TransactionManager.delete_transaction trans_id table in
  let second := TransactionManager.delete_transaction trans_id (snd first) in
  fst first = Ok true
  /\ fst second = Ok true
  /\ snd second = snd first.
Proof.
  cbv zeta. rewrite !delete_transaction_closed. cbn [fst snd].
  repeat split.
  rewrite loaded_write_rows.
  - now rewrite filter_twice.
  - apply Forall_filter, loaded_wf.
Qed.

(** An identifier that no transaction carries: the call returns [True]
    and the transactions that load are the same before and after. *)
Lemma delete_transaction_absent_id (trans_id : string)
    (table : list raw_transaction) :
  (forall t, In t (loaded table) -> _trans_id t <> trans_id) ->
  fst (TransactionManager.delete_transaction trans_id table) = Ok true
  /\ loaded (snd (TransactionManager.delete_transaction trans_id table))
     = loaded table.
Proof.
  intro H. rewrite delete_transaction_closed. cbn [fst snd].
  split; [reflexivity|].
  rewrite loaded_write_rows by apply Forall_filter, loaded_wf.
  apply forallb_filter_id, forallb_forall.
  intros t Ht. apply negb_true_iff, String.eqb_neq, H, Ht.
Qed.




(** A refused record disappears on a delete for an identifier that no
    record carries, and the accepted one is written back normalised. *)
Example delete_drops_invalid_record :
  TransactionManager.delete_transaction "no-such-id"
    [Samples.bad_row; Samples.good_row]
  = (Ok true,
     [mkRawT "r2" "2024-02-01" (PFloat (Fin (25 # 2))) "Food" "expense"
        "lunch"]).
Proof. vm_compute. reflexivity. Qed.

(** ** get_financial_summary *)

Lemma load_transactions_total (f : option (list raw_transaction)) :
  TransactionManager.load_transactions f
  = Ok (match f with Some rows => loaded rows | None => [] end).
Proof.
  destruct f as [rows|]; [apply load_transactions_loaded | reflexivity].
Qed.

Lemma load_transactions_wf (f : option (list raw_transaction))
    (ts : list Transaction) :
  TransactionManager.load_transactions f = Ok ts -> Forall wf_transaction ts.
Proof.
  rewrite load_transactions_total. intro H. apply Ok_inj in H. subst ts.
  destruct f; [apply loaded_wf | constructor].
Qed.







(** ** BudgetManager *)

Lemma Budget_init_cases (c : string) (v : pyval) :
  BudgetImpl.__init__ c v
  = match py_float v with
    | Raise _ => Raise (ValueError "Budget limit must be a positive number")
    | Ok x =>
        if fle x zero
        then Raise (ValueError "Budget limit must be a positive number")
        else Ok (mkBudget c x)
    end.
Proof.
  unfold BudgetImpl.__init__, BudgetImpl._validate_inputs, bind,
    reraise_ValueError.
  destruct (py_float v) as [x|e] eqn:E.
  - destruct (fle x zero); reflexivity.
  - destruct (py_float_raises _ _ E) as [msg ->]. reflexivity.
Qed.

Lemma Budget_init_raises (c : string) (v : pyval) (e : exn) :
  BudgetImpl.__init__ c v = Raise e -> exists msg, e = ValueError msg.
Proof.
  rewrite Budget_init_cases.
  destruct (py_float v) as [x|]; [|intro H; inversion H; eauto].
  destruct (fle x zero); intro H; inversion H; eauto.
Qed.

Lemma budget_load_loop_closed (rows : list raw_budget) :
  forall budgets log,
    fst (BudgetManager.load_loop rows budgets log)
    = Ok (budgets ++ loaded_budgets rows).
Proof.
  induction rows as [|row rest IH]; intros bs log; simpl.
  - now rewrite app_nil_r.
  - destruct (BudgetManager.construct row) as [b|e] eqn:E.
    + rewrite IH, <- app_assoc. reflexivity.
    + unfold BudgetManager.construct in E.
      destruct (Budget_init_raises _ _ _ E) as [msg ->].
      rewrite IH. reflexivity.
Qed.

Lemma load_budgets_loaded (rows : list raw_budget) :
  BudgetManager.load_budgets (Some rows) = Ok (loaded_budgets rows).
Proof.
  unfold BudgetManager.load_budgets, BudgetManager.load_budgets_logged,
    open_read.
  apply budget_load_loop_closed.
Qed.

Lemma loaded_budgets_wf (rows : list raw_budget) :
  Forall wf_budget (loaded_budgets rows).
Proof.
  induction rows as [|row rest IH]; simpl; [constructor|].
  destruct (BudgetManager.construct row) as [b|e] eqn:E; simpl; [|exact IH].
  constructor; [|exact IH].
  unfold BudgetManager.construct in E.
  apply Budget_init_limit in E. apply E.
Qed.

Lemma construct_budget_row (b : Budget) :
  wf_budget b -> BudgetManager.construct (BudgetManager.write_row b) = Ok b.
Proof.
  unfold wf_budget, BudgetManager.construct, BudgetManager.write_row.
  cbn [rb_category rb_limit]. intro W.
  rewrite Budget_init_cases. cbn [py_float]. rewrite W.
  now destruct b.
Qed.

Lemma loaded_budget_rows (bs : list Budget) :
  Forall wf_budget bs ->
  loaded_budgets (map BudgetManager.write_row bs) = bs.
Proof.
  induction 1 as [|b bs Hb _ IH]; simpl; [reflexivity|].
  rewrite (construct_budget_row b Hb), IH. reflexivity.
Qed.

(** *** The dictionary keyed by category *)

Lemma dict_set_keys (d : list (string * Budget)) (k : string) (v : Budget) :
  map fst (BudgetManager.dict_set d k v)
  = if existsb (fun e => fst e =? k) d then map fst d else map fst d ++ [k].
Proof.
  induction d as [|[k' v'] d IH]; simpl; [reflexivity|].
  destruct (k' =? k) eqn:E; simpl.
  - apply String.eqb_eq in E. now subst.
  - rewrite IH. now destruct (existsb (fun e => fst e =? k) d).
Qed.

Lemma existsb_key_In (d : list (string * Budget)) (k : string) :
  existsb (fun e => fst e =? k) d = true <-> In k (map fst d).
Proof.
  rewrite existsb_exists, in_map_iff. split.
  - intros (e & Hin & E). apply String.eqb_eq in E. eauto.
  - intros (e & E & Hin). exists e. split; [exact Hin|].
    now apply String.eqb_eq.
Qed.

Lemma dict_set_NoDup (d : list (string * Budget)) (k : string) (v : Budget) :
  NoDup (map fst d) -> NoDup (map fst (BudgetManager.dict_set d k v)).
Proof.
  intro N. rewrite dict_set_keys.
  destruct (existsb (fun e => fst e =? k) d) eqn:E; [exact N|].
  apply NoDup_app; [exact N | repeat constructor; intros [] |].
  intros k' Hin [<-|[]].
  apply existsb_key_In in Hin. congruence.
Qed.

Lemma dict_set_keyed (d : list (string * Budget)) (k : string) (v : Budget) :
  keyed d -> b_category v = k -> keyed (BudgetManager.dict_set d k v).
Proof.
  intros K Hv. induction K as [|[k' v'] d He K' IH]; simpl.
  - repeat constructor. exact Hv.
  - destruct (k' =? k); constructor; simpl; assumption.
Qed.

Lemma dict_set_values (P : Budget -> Prop) (d : list (string * Budget))
    (k : string) (v : Budget) :
  Forall P (map snd d) -> P v ->
  Forall P (map snd (BudgetManager.dict_set d k v)).
Proof.
  intros H Hv. induction d as [|[k' v'] d IH]; simpl.
  - repeat constructor. exact Hv.
  - inversion H; subst.
    destruct (k' =? k); simpl; constructor; auto.
Qed.

Lemma dict_of_invariant (P : Budget -> Prop) (bs : list Budget) :
  Forall P bs ->
  NoDup (map fst (BudgetManager.dict_of bs))
  /\ keyed (BudgetManager.dict_of bs)
  /\ Forall P (map snd (BudgetManager.dict_of bs)).
Proof.
  unfold BudgetManager.dict_of.
  assert (G : forall d,
             Forall P bs ->
             NoDup (map fst d) /\ keyed d /\ Forall P (map snd d) ->
             let d' := fold_left
                         (fun d b => BudgetManager.dict_set d (b_category b) b)
                         bs d in
             NoDup (map fst d') /\ keyed d' /\ Forall P (map snd d')).
  { induction bs as [|b bs IH]; intros d Hall (N & K & V); simpl;
      [auto|].
    inversion Hall; subst.
    apply IH; [assumption|].
    split; [|split].
    - now apply dict_set_NoDup.
    - now apply dict_set_keyed.
    - now apply dict_set_values. }
  intro Hall. apply (G [] Hall).
  repeat split; constructor.
Qed.

Lemma dict_set_lookup (d : list (string * Budget)) (k : string) (v : Budget) :
  NoDup (map fst d) ->
  filter (fun e => fst e =? k) (BudgetManager.dict_set d k v) = [(k, v)].
Proof.
  induction d as [|[k' v'] d IH]; intro N; simpl.
  - now rewrite String.eqb_refl.
  - inversion N as [|? ? Hnot N']; subst.
    destruct (k' =? k) eqn:E; simpl.
    + rewrite String.eqb_refl. f_equal.
      apply String.eqb_eq in E. subst k'.
      clear - Hnot. induction d as [|[k2 v2] d IH]; simpl; [reflexivity|].
      simpl in Hnot.
      destruct (k2 =? k) eqn:E2.
      * apply String.eqb_eq in E2. tauto.
      * apply IH. tauto.
    + rewrite E. now apply IH.
Qed.

Lemma rows_of_keyed (d : list (string * Budget)) :
  keyed d ->
  map rb_category (map BudgetManager.write_row (BudgetManager.dict_values d))
  = map fst d.
Proof.
  unfold BudgetManager.dict_values.
  induction 1 as [|e d He _ IH]; simpl; [reflexivity|].
  now rewrite He, IH.
Qed.

Lemma filter_rows_keyed (d : list (string * Budget)) (c : string) :
  keyed d ->
  filter (fun r => rb_category r =? c)
    (map BudgetManager.write_row (BudgetManager.dict_values d))
  = map BudgetManager.write_row
      (BudgetManager.dict_values (filter (fun e => fst e =? c) d)).
Proof.
  unfold BudgetManager.dict_values.
  induction 1 as [|e d He _ IH]; simpl; [reflexivity|].
  rewrite He. destruct (fst e =? c); simpl; now rewrite IH.
Qed.

Lemma set_budget_closed (c : string) (v : pyval) (table : list raw_budget) :
  BudgetManager.set_budget c v table
  = match BudgetImpl.__init__ c v with
    | Ok b =>
        (Ok b,
         map BudgetManager.write_row
           (BudgetManager.dict_values
              (BudgetManager.dict_set
                 (BudgetManager.dict_of (loaded_budgets table)) c b)))
    | Raise e => (Raise e, table)
    end.
Proof.
  unfold BudgetManager.set_budget.
  destruct (BudgetImpl.__init__ c v); cbn [bind]; [|reflexivity].
  now rewrite load_budgets_loaded.
Qed.

Lemma set_budget_ok (c : string) (v : pyval) (table table' : list raw_budget)
    (b : Budget) :
  BudgetManager.set_budget c v table = (Ok b, table') ->
  BudgetImpl.__init__ c v = Ok b
  /\ NoDup (map rb_category table')
  /\ filter (fun r => rb_category r =? c) table' = [BudgetManager.write_row b]
  /\ loaded_budgets table'
     = BudgetManager.dict_values
         (BudgetManager.dict_set
            (BudgetManager.dict_of (loaded_budgets table)) c b).
Proof.
  rewrite set_budget_closed.
  destruct (BudgetImpl.__init__ c v) as [b'|e] eqn:E; [|discriminate].
  intro H. injection H as -> <-.
  destruct (Budget_init_limit _ _ _ E) as (Hc & _ & Hw).
  destruct (dict_of_invariant wf_budget (loaded_budgets table)
              (loaded_budgets_wf table)) as (N & K & V).
  pose proof (dict_set_NoDup _ c b N) as N'.
  pose proof (dict_set_keyed _ c b K Hc) as K'.
  pose proof (dict_set_values wf_budget _ c b V Hw) as V'.
  repeat split.
  - now rewrite rows_of_keyed.
  - rewrite filter_rows_keyed by exact K'.
    now rewrite dict_set_lookup.
  - now apply loaded_budget_rows.
Qed.

Lemma filter_values_keyed (d : list (string * Budget)) (c : string) :
  keyed d ->
  filter (fun b => b_category b =? c) (BudgetManager.dict_values d)
  = BudgetManager.dict_values (filter (fun e => fst e =? c) d).
Proof.
  unfold BudgetManager.dict_values.
  induction 1 as [|e d He _ IH]; simpl; [reflexivity|].
  rewrite He. destruct (fst e =? c); simpl; now rewrite IH.
Qed.

Lemma set_budget_NoDup (c : string) (v : pyval) (table : list raw_budget) :
  NoDup (map rb_category table) ->
  NoDup (map rb_category (snd (BudgetManager.set_budget c v table))).
Proof.
  intro N.
  destruct (BudgetManager.set_budget c v table) as [[b|e] table'] eqn:E.
  - apply set_budget_ok in E. apply E.
  - rewrite set_budget_closed in E.
    destruct (BudgetImpl.__init__ c v); [discriminate|].
    injection E as _ <-. exact N.
Qed.

Lemma set_budgets_NoDup (calls : list (string * pyval)) :
  forall table,
    NoDup (map rb_category table) ->
    NoDup (map rb_category (set_budgets calls table)).
Proof.
  unfold set_budgets.
  induction calls as [|[c v] calls IH]; intros table N; simpl; [exact N|].
  apply IH, set_budget_NoDup, N.
Qed.

(** C5.  Whatever the [set_budget] calls, the table that starts empty
    never holds two budgets of one category, and neither does a table
    that held none before or any table after a call that succeeded.
    After two calls for the same category the table holds one budget of
    that category, and it carries the limit of the second call. *)
Theorem set_budget_one_per_category :
  (forall calls, NoDup (map rb_category (set_budgets calls [])))
  /\ (forall calls table,
         NoDup (map rb_category table) ->
         NoDup (map rb_category (set_budgets calls table)))
  /\ (forall c v table b table',
         BudgetManager.set_budget c v table = (Ok b, table') ->
         NoDup (map rb_category table'))
  /\ (forall c v1 v2 table b1 table1 b2 table2,
         BudgetManager.set_budget c v1 table = (Ok b1, table1) ->
         BudgetManager.set_budget c v2 table1 = (Ok b2, table2) ->
         py_float v2 = Ok (b_limit b2)
         /\ filter (fun r => rb_category r =? c) table2
            = [mkRawB c (PFloat (b_limit b2))]
         /\ exists budgets,
             BudgetManager.load_budgets (Some table2) = Ok budgets
             /\ filter (fun b => b_category b =? c) budgets
                = [mkBudget c (b_limit b2)])
  /\ set_budgets [("Food", PStr "100"); ("Rent", PFloat (Fin 900));
                  ("Food", PStr "250"); ("Fun", PStr "-1")] []
     = [mkRawB "Food" (PFloat (Fin 250)); mkRawB "Rent" (PFloat (Fin 900))].
Proof.
  split; [|split; [|split; [|split]]].
  - intro calls. apply set_budgets_NoDup. constructor.
  - intros calls table. apply set_budgets_NoDup.
  - intros c v table b table' E. apply set_budget_ok in E. apply E.
  - intros c v1 v2 table b1 table1 b2 table2 _ E2.
    apply set_budget_ok in E2. destruct E2 as (I & N & F & L).
    destruct (Budget_init_limit _ _ _ I) as (Hc & Hf & Hw).
    assert (Hb : b2 = mkBudget c (b_limit b2)).
    { destruct b2 as [c2 l2]. simpl in Hc. now subst. }
    split; [exact Hf|]. split.
    + rewrite F. unfold BudgetManager.write_row. now rewrite Hc.
    + exists (loaded_budgets table2). split; [apply load_budgets_loaded|].
      rewrite L.
      destruct (dict_of_invariant wf_budget (loaded_budgets table1)
                  (loaded_budgets_wf table1)) as (N1 & K1 & _).
      rewrite filter_values_keyed by (apply dict_set_keyed; assumption).
      rewrite dict_set_lookup by exact N1.
      unfold BudgetManager.dict_values. simpl. now rewrite <- Hb.
  - vm_compute. reflexivity.
Qed.

(** ** generate_monthly_report *)

Section SortedKeysFacts.
Context {A : Type} (cmp : A -> A -> comparison).
Hypothesis cmp_eq : forall x y, cmp x y = Eq -> x = y.
Hypothesis cmp_gt : forall x y, cmp x y = Gt -> cmp y x = Lt.
Hypothesis cmp_trans :
  forall x y z, cmp x y = Lt -> cmp y z = Lt -> cmp x z = Lt.
Hypothesis cmp_irrefl : forall x, cmp x x <> Lt.

Lemma In_insert_key (x y : A) (l : list A) :
  In y (Pandas.insert_key cmp x l) <-> y = x \/ In y l.
Proof.
  induction l as [|z l IH]; simpl; [intuition|].
  destruct (cmp x z) eqn:E; simpl.
  - apply cmp_eq in E. subst z. intuition.
  - intuition.
  - rewrite IH. intuition.
Qed.


Lemma insert_key_ascending (x : A) (l : list A) :
  Pandas.ascending cmp l -> Pandas.ascending cmp (Pandas.insert_key cmp x l).
Proof.
  induction 1 as [|z l Hz Hl IH]; simpl.
  - constructor; [intros y []|constructor].
  - destruct (cmp x z) eqn:E.
    + now constructor.
    + constructor; [|now constructor].
      intros y [<-|Hy]; [exact E|].
      apply cmp_trans with z; [exact E | now apply Hz].
    + constructor; [|exact IH].
      intros y Hy. apply In_insert_key in Hy.
      destruct Hy as [->|Hy]; [now apply cmp_gt | now apply Hz].
Qed.

Lemma sorted_keys_ascending (l : list A) :
  Pandas.ascending cmp (Pandas.sorted_keys cmp l).
Proof.
  induction l as [|x l IH]; simpl; [constructor|].
  now apply insert_key_ascending.
Qed.



End SortedKeysFacts.

Lemma period_compare_eq (p q : Pandas.period) :
  Pandas.period_compare p q = Eq -> p = q.
Proof.
  destruct p as [y m], q as [y' m']. unfold Pandas.period_compare. simpl.
  destruct (Z.compare_spec y y'); try discriminate.
  intro G. apply Z.compare_eq in G. now subst.
Qed.

Lemma period_compare_gt (p q : Pandas.period) :
  Pandas.period_compare p q = Gt -> Pandas.period_compare q p = Lt.
Proof.
  destruct p as [y m], q as [y' m']. unfold Pandas.period_compare. simpl.
  destruct (Z.compare_spec y y'), (Z.compare_spec y' y); try lia;
    try discriminate; try reflexivity.
  intro G. apply Z.compare_gt_iff in G. now apply Z.compare_lt_iff.
Qed.

Lemma period_compare_trans (p q r : Pandas.period) :
  Pandas.period_compare p q = Lt -> Pandas.period_compare q r = Lt ->
  Pandas.period_compare p r = Lt.
Proof.
  destruct p as [y m], q as [y' m'], r as [y2 m2].
  unfold Pandas.period_compare. simpl.
  destruct (Z.compare_spec y y'), (Z.compare_spec y' y2),
    (Z.compare_spec y y2); try lia; try discriminate; try reflexivity.
  rewrite !Z.compare_lt_iff. lia.
Qed.


Lemma period_eqb_eq (p q : Pandas.period) :
  Pandas.period_eqb p q = true <-> p = q.
Proof.
  destruct p as [y m], q as [y' m']. unfold Pandas.period_eqb. simpl.
  rewrite andb_true_iff, !Z.eqb_eq. split; [intros [-> ->] | intro H; inversion H]; auto.
Qed.






Lemma unstack_index (frame : list Pandas.frame_line) :
  map fst (Pandas.unstack frame zero)
  = Pandas.sorted_keys Pandas.period_compare (map Pandas.l_month frame).
Proof.
  unfold Pandas.unstack. rewrite map_map. simpl. apply map_id.
Qed.

Lemma monthly_data_months (frame : list Pandas.frame_line) :
  map Pandas.month (FinanceAnalyzer.monthly_data frame)
  = Pandas.sorted_keys Pandas.period_compare (map Pandas.l_month frame).
Proof.
  unfold FinanceAnalyzer.monthly_data. rewrite <- unstack_index, map_map.
  apply map_ext. now intros [p cells].
Qed.



(** ** Samples of the text primitives *)

Example float_of_string_samples :
  float_of_string "40" = Some (Fin 40)
  /\ float_of_string " 12.50 " = Some (Fin (25 # 2))
  /\ float_of_string "-5" = Some (Fin (-5))
  /\ float_of_string "1_000.5e-1" = Some (Fin (2001 # 20))
  /\ float_of_string "+.5" = Some (Fin (1 # 2))
  /\ float_of_string "-Infinity" = Some NInf
  /\ float_of_string "nan" = Some NaN
  /\ float_of_string "" = None
  /\ float_of_string "." = None
  /\ float_of_string "1__0" = None
  /\ float_of_string "12abc" = None
  /\ float_of_string "1e" = None.
Proof. repeat split; vm_compute; reflexivity. Qed.

Example strptime_samples :
  strptime_ymd "2024-01-15" = Some (2024, 1, 15)%Z
  /\ strptime_ymd "2024-1-5" = Some (2024, 1, 5)%Z
  /\ strptime_ymd "2024-02-29" = Some (2024, 2, 29)%Z
  /\ strptime_ymd "2023-02-29" = None
  /\ strptime_ymd "2024-13-01" = None
  /\ strptime_ymd "2024-01-32" = None
  /\ strptime_ymd "2024-01-155" = None
  /\ strptime_ymd "0000-01-01" = None
  /\ strptime_ymd "15/01/2024" = None
  /\ strptime_ymd "2024-01-15 " = None.
Proof. repeat split; vm_compute; reflexivity. Qed.

(** ** Samples on the tables *)

(** The budget status of the example of C1, through the two tables:
    the income of the category is not counted. *)
Example budget_status_sample :
  FinanceTracker.get_budget_status
    (Some [mkRawB "Food" (PStr "100")]) (Some Samples.food_rows)
  = Ok [{| bs_category := "Food"; bs_limit := Fin 100; bs_spent := Fin 110;
           bs_remaining := Fin 0; bs_percentage := Fin 100;
           bs_exceeded := true |}].
Proof. vm_compute. reflexivity. Qed.

Lemma set_budget_one_per_category_witness :
  exists b1 table1 b2 table2,
    BudgetManager.set_budget "Food" (PStr "100") [] = (Ok b1, table1)
    /\ BudgetManager.set_budget "Food" (PStr "250") table1 = (Ok b2, table2)
    /\ filter (fun r => rb_category r =? "Food") table2
       = [mkRawB "Food" (PFloat (b_limit b2))]
    /\ b_limit b2 = Fin 250.
Proof.
  destruct set_budget_one_per_category as (_ & _ & _ & H & _).
  eexists _, _, _, _.
  split; [vm_compute; reflexivity|].
  split; [vm_compute; reflexivity|].
  split; [|reflexivity].
  eapply (H "Food" (PStr "100") (PStr "250") []); vm_compute; reflexivity.
Defined.



(** * Further properties of the module *)

(** ** Transaction and Budget construction *)

(** X1.  A [Transaction] that was constructed keeps the identifier, the
    date, the category and the description it was given, carries the
    type in lower case, which is then "income" or "expense" and nothing
    else, an amount that is [float(amount)] and not [<= 0], and a date
    that [strptime] read as a day of the calendar. *)
Theorem Transaction_init_invariant
    (trans_id date : string) (amount : pyval)
    (category trans_type description : string) (t : Transaction) :
  TransactionImpl.__init__ trans_id date amount category trans_type description
  = Ok t ->
  _trans_id t = trans_id /\ _date t = date /\ _category t = category
  /\ _description t = description
  /\ _trans_type t = str_lower trans_type
  /\ (_trans_type t = "income" \/ _trans_type t = "expense")
  /\ py_float amount = Ok (_amount t)
  /\ fle (_amount t) zero = false
  /\ exists y m d,
      strptime_ymd date = Some (y, m, d)
      /\ (1 <= y /\ 1 <= m <= 12 /\ 1 <= d <= days_in_month y m)%Z.
Proof.
  intro H. apply Transaction_init_ok in H.
  destruct H as (D & A & F & T & E).
  destruct t as [i d0 a c ty0 de]. cbn [_amount] in *.
  inversion E; subst. cbn [_trans_id _date _category _description _trans_type].
  repeat split; try assumption.
  - now apply income_or_expense_lower.
  - destruct (strptime_ymd date) as [[[y m] d]|] eqn:S; [|congruence].
    exists y, m, d. split; [reflexivity|].
    now apply strptime_ymd_calendar with date.
Qed.

Lemma Transaction_init_invariant_witness :
  exists t,
    TransactionImpl.__init__ "r2" "2024-02-01" (PStr "12.50") "Food" "Expense"
      "lunch" = Ok t
    /\ _trans_type t = "expense".
Proof.
  eexists. split; [vm_compute; reflexivity|].
  destruct (Transaction_init_invariant "r2" "2024-02-01" (PStr "12.50") "Food"
              "Expense" "lunch" Samples.good_transaction eq_refl)
    as (_ & _ & _ & _ & E & _).
  exact E.
Defined.

(** X2.  When [Transaction] raises, the error is a [ValueError] whose
    text names the first check that fails, in the order date, amount,
    type: a bad date gives the date text whatever the amount and the
    type; a text that is no number and a number that is zero or less
    give the same amount text, and "Amount must be positive" never
    reaches the caller. *)
Theorem Transaction_init_error
    (trans_id date : string) (amount : pyval)
    (category trans_type description : string) (e : exn) :
  TransactionImpl.__init__ trans_id date amount category trans_type description
  = Raise e ->
  e <> ValueError "Amount must be positive"
  /\ ((strptime_ymd date = None
       /\ e = ValueError "Date must be in YYYY-MM-DD format")
      \/ (strptime_ymd date <> None /\ amount_refused amount
          /\ e = ValueError "Amount must be a positive number")
      \/ (strptime_ymd date <> None /\ ~ amount_refused amount
          /\ Spec.income_or_expense trans_type = false
          /\ e = ValueError "Transaction type must be 'income' or 'expense'")).
Proof.
  rewrite Transaction_init_cases. unfold amount_refused.
  destruct (strptime_ymd date) as [d|].
  - destruct (py_float amount) as [x|e'].
    + destruct (fle x zero) eqn:F.
      * intro H. inversion H; subst.
        split; [discriminate|]. right; left.
        split; [discriminate|]. split; reflexivity.
      * destruct (Spec.income_or_expense trans_type) eqn:T; [discriminate|].
        intro H. inversion H; subst.
        split; [discriminate|]. right; right.
        split; [discriminate|]. split; [discriminate|]. split; reflexivity.
    + intro H. inversion H; subst.
      split; [discriminate|]. right; left.
      split; [discriminate|]. split; [exact I | reflexivity].
  - intro H. inversion H; subst.
    split; [discriminate|]. left. split; reflexivity.
Qed.

Lemma Transaction_init_error_witness :
  ValueError "Date must be in YYYY-MM-DD format"
  <> ValueError "Amount must be positive"
  /\ ((strptime_ymd "yesterday" = None
       /\ ValueError "Date must be in YYYY-MM-DD format"
          = ValueError "Date must be in YYYY-MM-DD format")
      \/ (strptime_ymd "yesterday" <> None /\ amount_refused (PStr "-5")
          /\ ValueError "Date must be in YYYY-MM-DD format"
             = ValueError "Amount must be a positive number")
      \/ (strptime_ymd "yesterday" <> None /\ ~ amount_refused (PStr "-5")
          /\ Spec.income_or_expense "gift" = false
          /\ ValueError "Date must be in YYYY-MM-DD format"
             = ValueError "Transaction type must be 'income' or 'expense'")).
Proof.
  apply (Transaction_init_error "id" "yesterday" (PStr "-5") "Food" "gift" "").
  reflexivity.
Defined.



(** ** Budget.check_limit: the two regimes *)

Lemma Qred_zero (q : Q) : (q == 0)%Q -> Qred q = 0%Q.
Proof. intro H. now rewrite (Qred_complete _ _ H). Qed.

Lemma Qred_hundred (q : Q) : (q == 100)%Q -> Qred q = 100%Q.
Proof. intro H. now rewrite (Qred_complete _ _ H). Qed.

(** X11.  When the total is above a limit that is above zero, nothing
    remains and the percentage is capped: [remaining] is [0] and
    [percentage] is [100], whatever the amounts are. *)
Theorem check_limit_exceeded_capped (b : Budget)
    (expenses : list Transaction) :
  flt zero (b_limit b) = true ->
  exceeded (BudgetImpl.check_limit b expenses) = true ->
  remaining (BudgetImpl.check_limit b expenses) = zero
  /\ percentage (BudgetImpl.check_limit b expenses) = hundred.
Proof.
  unfold BudgetImpl.check_limit. cbn [exceeded remaining percentage].
  set (t := py_sum _). unfold fgt. intros HL HE. rewrite HL.
  destruct (b_limit b) as [l| | |]; try discriminate.
  - apply Qltb_lt in HL.
    destruct t as [q| | |]; try discriminate.
    + cbn [flt] in HE. apply Qltb_lt in HE. split.
      * unfold py_max, fgt. cbn [fsub flt zero].
        destruct (Qltb 0 (Qred (l - q))) eqn:E; [|reflexivity].
        apply Qltb_lt in E. exfalso. qred_lra.
      * cbn [fdiv]. destruct (Qeq_bool l 0) eqn:Z.
        { apply Qeq_bool_iff in Z. lra. }
        unfold py_min. cbn [fmul hundred flt].
        destruct (Qltb (Qred (Qred (q / l) * 100)) 100) eqn:E; [|reflexivity].
        apply Qltb_lt in E. exfalso.
        assert (1 < q / l)%Q.
        { apply Qlt_shift_div_l; [exact HL | lra]. }
        qred_lra.
    + split; [reflexivity|].
      cbn [fdiv]. destruct (Qeq_bool l 0) eqn:Z.
      { apply Qeq_bool_iff in Z. lra. }
      unfold signed_inf. apply Qltb_lt in HL. rewrite HL. reflexivity.
  - destruct t; discriminate.
Qed.

Lemma check_limit_exceeded_capped_witness :
  remaining (BudgetImpl.check_limit Samples.food_budget Samples.food_expenses)
  = zero
  /\ percentage
       (BudgetImpl.check_limit Samples.food_budget Samples.food_expenses)
     = hundred.
Proof.
  apply check_limit_exceeded_capped; reflexivity.
Defined.

(** X12.  When a finite total is not above a finite limit that is above
    zero, neither [max] nor [min] cuts anything: [remaining] is
    [limit - total] and [percentage] is [total / limit * 100]. *)
Theorem check_limit_within_budget (b : Budget)
    (expenses : list Transaction) :
  flt zero (b_limit b) = true ->
  is_finite (b_limit b) = true ->
  is_finite (total (BudgetImpl.check_limit b expenses)) = true ->
  exceeded (BudgetImpl.check_limit b expenses) = false ->
  remaining (BudgetImpl.check_limit b expenses)
  = fsub (b_limit b) (total (BudgetImpl.check_limit b expenses))
  /\ percentage (BudgetImpl.check_limit b expenses)
     = fmul (fdiv (total (BudgetImpl.check_limit b expenses)) (b_limit b))
         hundred.
Proof.
  unfold BudgetImpl.check_limit. cbn [exceeded remaining percentage total].
  set (t := py_sum _). unfold fgt. intros HL FL FT HE. rewrite HL.
  destruct (b_limit b) as [l| | |]; try discriminate.
  destruct t as [q| | |]; try discriminate.
  cbn [flt] in HL, HE. apply Qltb_lt in HL. apply Qltb_ge in HE. split.
  - unfold py_max, fgt. cbn [fsub flt zero].
    destruct (Qltb 0 (Qred (l - q))) eqn:E; [reflexivity|].
    apply Qltb_ge in E. unfold zero. f_equal. symmetry.
    apply Qred_zero. qred_lra.
  - cbn [fdiv]. destruct (Qeq_bool l 0) eqn:Z.
    { apply Qeq_bool_iff in Z. lra. }
    unfold py_min. cbn [fmul hundred flt].
    destruct (Qltb (Qred (Qred (q / l) * 100)) 100) eqn:E; [reflexivity|].
    apply Qltb_ge in E. unfold hundred. f_equal. symmetry.
    apply Qred_hundred.
    assert (q / l <= 1)%Q.
    { apply Qle_shift_div_r; [exact HL | lra]. }
    qred_lra.
Qed.

Lemma check_limit_within_budget_witness :
  remaining
    (BudgetImpl.check_limit Samples.food_budget [Samples.expense "t1" "Food" 40])
  = fsub (Fin 100) (Fin 40)
  /\ percentage
       (BudgetImpl.check_limit Samples.food_budget
          [Samples.expense "t1" "Food" 40])
     = fmul (fdiv (Fin 40) (Fin 100)) hundred.
Proof.
  apply (check_limit_within_budget Samples.food_budget
           [Samples.expense "t1" "Food" 40]); reflexivity.
Defined.

(** X13.  With no expense of the budget's category, and a limit above
    zero, the total is [0], the budget is not exceeded, the percentage
    is [0] and what remains equals the limit. *)
Theorem check_limit_no_matching_expense (b : Budget)
    (expenses : list Transaction) :
  flt zero (b_limit b) = true ->
  (forall e, In e expenses -> _category e <> b_category b) ->
  total (BudgetImpl.check_limit b expenses) = zero
  /\ exceeded (BudgetImpl.check_limit b expenses) = false
  /\ percentage (BudgetImpl.check_limit b expenses) = zero
  /\ feq (remaining (BudgetImpl.check_limit b expenses)) (b_limit b) = true.
Proof.
  intros HL Hnone.
  assert (F : filter (fun e => _category e =? b_category b) expenses = []).
  { induction expenses as [|e es IH]; simpl; [reflexivity|].
    destruct (_category e =? b_category b) eqn:E.
    - apply String.eqb_eq in E. exfalso. apply (Hnone e); [now left | exact E].
    - apply IH. intros e' He'. apply Hnone. now right. }
  unfold BudgetImpl.check_limit. cbn [exceeded remaining percentage total].
  rewrite F. cbn [map py_sum fold_left]. unfold fgt. rewrite HL.
  destruct (b_limit b) as [l| | |]; try discriminate.
  - cbn [flt zero] in HL. apply Qltb_lt in HL.
    assert (NL : Qltb l 0 = false) by (apply Qltb_ge; lra).
    repeat split.
    + cbn [flt zero]. exact NL.
    + cbn [fdiv zero]. destruct (Qeq_bool l 0) eqn:Z.
      { apply Qeq_bool_iff in Z. lra. }
      unfold py_min. cbn [fmul hundred flt].
      rewrite (Qred_zero (0 / l)) by (unfold Qdiv; lra).
      reflexivity.
    + unfold py_max, fgt. cbn [fsub flt zero].
      destruct (Qltb 0 (Qred (l - 0))) eqn:E.
      * cbn [feq]. apply Qeq_bool_iff. qred_lra.
      * apply Qltb_ge in E. exfalso. qred_lra.
  - repeat split.
Qed.

Lemma check_limit_no_matching_expense_witness :
  total (BudgetImpl.check_limit Samples.food_budget
           [Samples.expense "t3" "Other" 1000]) = zero
  /\ exceeded (BudgetImpl.check_limit Samples.food_budget
                 [Samples.expense "t3" "Other" 1000]) = false
  /\ percentage (BudgetImpl.check_limit Samples.food_budget
                   [Samples.expense "t3" "Other" 1000]) = zero
  /\ feq (remaining (BudgetImpl.check_limit Samples.food_budget
                       [Samples.expense "t3" "Other" 1000]))
       (Fin 100) = true.
Proof.
  apply (check_limit_no_matching_expense Samples.food_budget
           [Samples.expense "t3" "Other" 1000]).
  - reflexivity.
  - intros e [<-|[]]. discriminate.
Defined.

(** ** get_financial_summary: what the two sums cover *)

Lemma Some_inj {A : Type} (a b : A) : Some a = Some b -> a = b.
Proof. congruence. Qed.





(** X15.  Every transaction that loads enters exactly one of the two
    sums of the summary: its type is "income" or "expense" and never
    both, so the two selections together have as many members as the
    loaded list. *)
Theorem financial_summary_covers_each_once
    (f : option (list raw_transaction)) (ts : list Transaction) :
  TransactionManager.load_transactions f = Ok ts ->
  (forall t, In t ts ->
     xorb (_trans_type t =? "income") (_trans_type t =? "expense") = true)
  /\ (List.length (filter (fun t => (_trans_type t =? "income")%string) ts)
      + List.length (filter (fun t => (_trans_type t =? "expense")%string) ts)
      = List.length ts)%nat.
Proof.
  intro Hload. pose proof (load_transactions_wf f ts Hload) as W.
  clear Hload. split.
  - intros t Ht. rewrite Forall_forall in W.
    destruct (W t Ht) as (_ & _ & [-> | ->]); reflexivity.
  - induction W as [|t ts (_ & _ & [E|E]) _ IH]; simpl; [reflexivity| |];
      rewrite E; simpl; lia.
Qed.

Lemma financial_summary_covers_each_once_witness :
  (List.length
     (filter (fun t => (_trans_type t =? "income")%string) (loaded Samples.two_months))
   + List.length
       (filter (fun t => (_trans_type t =? "expense")%string)
          (loaded Samples.two_months))
   = List.length (loaded Samples.two_months))%nat.
Proof.
  apply (financial_summary_covers_each_once (Some Samples.two_months)).
  apply load_transactions_loaded.
Defined.

(** ** delete_transaction and add_transaction seen through the loader *)

(** X8.  After [delete_transaction], [load_transactions] returns what
    it returned before less the transactions that carry the identifier,
    all of them, the others unchanged and in their order; none that is
    left carries the identifier. *)
Theorem delete_then_load (trans_id : string) (table : list raw_transaction)
    (before : list Transaction) :
  TransactionManager.load_transactions (Some table) = Ok before ->
  TransactionManager.load_transactions
    (Some (snd (TransactionManager.delete_transaction trans_id table)))
  = Ok (filter (fun t => negb (_trans_id t =? trans_id)) before)
  /\ forall t,
      In t (filter (fun t => negb (_trans_id t =? trans_id)) before) ->
      _trans_id t <> trans_id.
Proof.
  rewrite load_transactions_loaded. intro H. apply Ok_inj in H. subst before.
  rewrite delete_transaction_closed. cbn [snd].
  rewrite load_transactions_loaded.
  rewrite loaded_write_rows by apply Forall_filter, loaded_wf.
  split; [reflexivity|].
  intros t Ht. apply filter_In in Ht. destruct Ht as [_ Ht].
  now apply negb_true_iff, String.eqb_neq in Ht.
Qed.

Lemma delete_then_load_witness :
  TransactionManager.load_transactions
    (Some (snd (TransactionManager.delete_transaction "b" Samples.two_months)))
  = Ok (filter (fun t => negb (_trans_id t =? "b"))
          (loaded Samples.two_months)).
Proof.
  apply (delete_then_load "b" Samples.two_months (loaded Samples.two_months)).
  apply load_transactions_loaded.
Defined.



(** ** BudgetManager: loading, setting and deleting *)





(** *** What the dictionary of [set_budget] holds *)

Lemma dict_get_set (d : list (string * Budget)) (c k : string) (v : Budget) :
  dict_get (BudgetManager.dict_set d c v) k
  = if c =? k then Some v else dict_get d k.
Proof.
  induction d as [|[k' v'] d IH]; simpl.
  - reflexivity.
  - destruct (k' =? c) eqn:E; simpl.
    + apply String.eqb_eq in E. subst k'.
      now destruct (c =? k).
    + rewrite IH. destruct (k' =? k) eqn:K; [|reflexivity].
      apply String.eqb_eq in K. subst k'. now rewrite String.eqb_sym, E.
Qed.

Lemma dict_get_of (bs : list Budget) (k : string) :
  dict_get (BudgetManager.dict_of bs) k = last_budget k bs.
Proof.
  unfold BudgetManager.dict_of, last_budget.
  assert (G : forall d,
             dict_get
               (fold_left
                  (fun d b => BudgetManager.dict_set d (b_category b) b) bs d)
               k
             = fold_left
                 (fun acc b => if b_category b =? k then Some b else acc)
                 bs (dict_get d k)).
  { induction bs as [|b bs IH]; intro d; simpl; [reflexivity|].
    now rewrite IH, dict_get_set. }
  apply (G []).
Qed.

Lemma filter_key_get (d : list (string * Budget)) (k : string) :
  NoDup (map fst d) ->
  filter (fun e => fst e =? k) d
  = match dict_get d k with
    | Some v => [(k, v)]
    | None => []
    end.
Proof.
  induction d as [|[k' v'] d IH]; intro N; simpl; [reflexivity|].
  inversion N as [|? ? Hnot N']; subst.
  destruct (k' =? k) eqn:E.
  - apply String.eqb_eq in E. subst k'. f_equal.
    clear - Hnot. induction d as [|[k2 v2] d IH]; simpl; [reflexivity|].
    simpl in Hnot. destruct (k2 =? k) eqn:E2.
    + apply String.eqb_eq in E2. tauto.
    + apply IH. tauto.
  - now apply IH.
Qed.

(** X4.  A [set_budget] that succeeds leaves the other categories as
    they loaded: afterwards each category other than the one set has
    exactly the budget that loaded last for it before, or none if none
    loaded, so that a table with several records of one category ends
    with the last of them. *)
Theorem set_budget_other_categories (category : string) (limit : pyval)
    (table table' : list raw_budget) (b : Budget)
    (before after : list Budget) (k : string) :
  BudgetManager.set_budget category limit table = (Ok b, table') ->
  BudgetManager.load_budgets (Some table) = Ok before ->
  BudgetManager.load_budgets (Some table') = Ok after ->
  k <> category ->
  filter (fun x => b_category x =? k) after
  = match last_budget k before with
    | Some x => [x]
    | None => []
    end.
Proof.
  intros Hset Hb Ha Hk.
  rewrite load_budgets_loaded in Hb, Ha. apply Ok_inj in Hb, Ha.
  subst before after.
  apply set_budget_ok in Hset. destruct Hset as (I & _ & _ & L).
  destruct (Budget_init_limit _ _ _ I) as (Hc & _ & Hw).
  destruct (dict_of_invariant wf_budget (loaded_budgets table)
              (loaded_budgets_wf table)) as (N & K & _).
  rewrite L, filter_values_keyed by (apply dict_set_keyed; assumption).
  rewrite filter_key_get by now apply dict_set_NoDup.
  rewrite dict_get_set, dict_get_of.
  apply String.eqb_neq in Hk. rewrite String.eqb_sym, Hk.
  now destruct (last_budget k (loaded_budgets table)).
Qed.

Lemma set_budget_other_categories_witness :
  filter (fun x => b_category x =? "Rent")
    [mkBudget "Rent" (Fin 950); mkBudget "Food" (Fin 100)]
  = match last_budget "Rent"
            [mkBudget "Rent" (Fin 900); mkBudget "Rent" (Fin 950)] with
    | Some x => [x]
    | None => []
    end.
Proof.
  apply (set_budget_other_categories "Food" (PStr "100")
           [mkRawB "Rent" (PStr "900"); mkRawB "Rent" (PStr "950")]
           [mkRawB "Rent" (PFloat (Fin 950)); mkRawB "Food" (PFloat (Fin 100))]
           (mkBudget "Food" (Fin 100))); try reflexivity.
  discriminate.
Defined.

Lemma existsb_mapped {A B : Type} (f : B -> bool) (g : A -> B) (l : list A) :
  existsb f (map g l) = existsb (fun x => f (g x)) l.
Proof.
  induction l as [|x l IH]; simpl; [reflexivity | now rewrite IH].
Qed.

Lemma dict_set_fresh (d : list (string * Budget)) (k : string) (v : Budget) :
  ~ In k (map fst d) -> BudgetManager.dict_set d k v = d ++ [(k, v)].
Proof.
  induction d as [|[k' v'] d IH]; simpl; intro H; [reflexivity|].
  destruct (k' =? k) eqn:E.
  - apply String.eqb_eq in E. tauto.
  - rewrite IH by tauto. reflexivity.
Qed.

Lemma dict_of_distinct (bs : list Budget) :
  NoDup (map b_category bs) ->
  BudgetManager.dict_of bs = map (fun b => (b_category b, b)) bs.
Proof.
  unfold BudgetManager.dict_of.
  assert (G : forall d,
             NoDup (map fst d ++ map b_category bs) ->
             fold_left (fun d b => BudgetManager.dict_set d (b_category b) b)
               bs d
             = d ++ map (fun b => (b_category b, b)) bs).
  { induction bs as [|b bs IH]; intros d N; simpl.
    - now rewrite app_nil_r.
    - rewrite dict_set_fresh.
      + rewrite IH.
        * now rewrite <- app_assoc.
        * rewrite map_app. simpl. rewrite <- app_assoc. exact N.
      + simpl in N. apply NoDup_remove_2 in N.
        intro H. apply N, in_or_app. now left. }
  intro N. apply (G []). exact N.
Qed.

Lemma dict_set_entries (bs : list Budget) (c : string) (b : Budget) :
  NoDup (map b_category bs) ->
  BudgetManager.dict_values
    (BudgetManager.dict_set (map (fun x => (b_category x, x)) bs) c b)
  = if existsb (fun x => b_category x =? c) bs
    then map (fun x => if b_category x =? c then b else x) bs
    else bs ++ [b].
Proof.
  unfold BudgetManager.dict_values.
  induction bs as [|x bs IH]; intro N; simpl; [reflexivity|].
  inversion N as [|? ? Hnot N']; subst.
  destruct (b_category x =? c) eqn:E; simpl.
  - f_equal. apply String.eqb_eq in E. subst c.
    rewrite map_map. simpl.
    clear - Hnot. induction bs as [|y bs IH]; simpl; [reflexivity|].
    simpl in Hnot. destruct (b_category y =? b_category x) eqn:E.
    + apply String.eqb_eq in E. exfalso. apply Hnot. now left.
    + f_equal. apply IH. tauto.
  - rewrite IH by exact N'.
    now destruct (existsb (fun x0 => b_category x0 =? c) bs).
Qed.

Lemma set_budget_normal (category : string) (limit : pyval)
    (table table' : list raw_budget) (b : Budget) :
  BudgetManager.set_budget category limit table = (Ok b, table') ->
  exists bs,
    table' = map BudgetManager.write_row bs
    /\ NoDup (map b_category bs)
    /\ Forall wf_budget bs
    /\ loaded_budgets table' = bs.
Proof.
  intro H. pose proof (set_budget_ok _ _ _ _ _ H) as (I & N & _ & L).
  rewrite set_budget_closed, I in H. injection H as <-.
  eexists. split; [reflexivity|].
  rewrite map_map in N. cbn [BudgetManager.write_row rb_category] in N.
  split; [exact N|]. split; [|exact L].
  destruct (Budget_init_limit _ _ _ I) as (_ & _ & Hw).
  destruct (dict_of_invariant wf_budget (loaded_budgets table)
              (loaded_budgets_wf table)) as (_ & _ & V).
  apply (dict_set_values wf_budget); assumption.
Qed.

(** X5.  On a table that a [set_budget] wrote, a further [set_budget]
    that succeeds changes one record in place when the category has a
    record, and appends one record when it has none; the other records
    stay where they are. *)
Theorem set_budget_in_place_or_appended
    (category0 category : string) (limit0 limit : pyval)
    (table0 table table' : list raw_budget) (b0 b : Budget) :
  BudgetManager.set_budget category0 limit0 table0 = (Ok b0, table) ->
  BudgetManager.set_budget category limit table = (Ok b, table') ->
  table'
  = if existsb (fun r => rb_category r =? category) table
    then map (fun r => if rb_category r =? category
                       then BudgetManager.write_row b else r) table
    else table ++ [BudgetManager.write_row b].
Proof.
  intros H0 H.
  destruct (set_budget_normal _ _ _ _ _ H0) as (bs & -> & N & W & L).
  rewrite set_budget_closed in H.
  destruct (BudgetImpl.__init__ category limit) as [b'|]; [|discriminate].
  injection H as -> <-.
  rewrite L, dict_of_distinct, dict_set_entries by exact N.
  rewrite existsb_mapped. cbn [BudgetManager.write_row rb_category].
  destruct (existsb (fun x => b_category x =? category) bs).
  - rewrite !map_map. apply map_ext. intro x.
    cbn [BudgetManager.write_row rb_category].
    now destruct (b_category x =? category).
  - now rewrite map_app.
Qed.

Lemma set_budget_in_place_or_appended_witness :
  [mkRawB "Food" (PFloat (Fin 250)); mkRawB "Rent" (PFloat (Fin 900))]
  = if existsb (fun r => rb_category r =? "Food")
         [mkRawB "Food" (PFloat (Fin 100)); mkRawB "Rent" (PFloat (Fin 900))]
    then map (fun r => if rb_category r =? "Food"
                       then BudgetManager.write_row (mkBudget "Food" (Fin 250))
                       else r)
           [mkRawB "Food" (PFloat (Fin 100)); mkRawB "Rent" (PFloat (Fin 900))]
    else [mkRawB "Food" (PFloat (Fin 100)); mkRawB "Rent" (PFloat (Fin 900))]
         ++ [BudgetManager.write_row (mkBudget "Food" (Fin 250))].
Proof.
  apply (set_budget_in_place_or_appended "Rent" "Food" (PStr "900")
           (PStr "250") [mkRawB "Food" (PStr "100")]
           _ _ (mkBudget "Rent" (Fin 900)) (mkBudget "Food" (Fin 250)));
    reflexivity.
Defined.



(** ** get_budget_status *)


(** ** generate_category_report *)










(** X18.  The rows of the monthly report come in the order of the
    calendar, each month once. *)
Theorem monthly_report_chronological (now : string)
    (f : option (list raw_transaction)) (path : string)
    (table : list Pandas.report_row) :
  FinanceAnalyzer.generate_monthly_report now f = Ok (Some (path, table)) ->
  Pandas.ascending Pandas.period_compare (map Pandas.month table).
Proof.
  unfold FinanceAnalyzer.generate_monthly_report.
  destruct (TransactionManager.load_transactions f) as [[|t ts]|e];
    cbn [bind]; try discriminate.
  destruct (FinanceAnalyzer.frame_of (t :: ts)) as [frame|e]; cbn [bind];
    [|discriminate].
  intro H. apply Ok_inj, Some_inj in H.
  assert (T : table = FinanceAnalyzer.monthly_data frame) by congruence.
  subst table. rewrite monthly_data_months.
  apply sorted_keys_ascending.
  - apply period_compare_eq.
  - apply period_compare_gt.
  - apply period_compare_trans.
Qed.

Lemma monthly_report_chronological_witness :
  Pandas.ascending Pandas.period_compare [(2024, 1)%Z; (2024, 2)%Z].
Proof.
  apply (monthly_report_chronological "20240301_120000"
           (Some Samples.two_months)
           "data/reports/monthly_report_20240301_120000.csv"
           [Pandas.mkRow (2024, 1)%Z
              [("expense", Fin 400); ("income", Fin 1000)] (Fin 600);
            Pandas.mkRow (2024, 2)%Z
              [("expense", Fin 50); ("income", Fin 0)] (Fin (-50))]).
  vm_compute. reflexivity.
Defined.
